(** * The SentimentAnalyzer component, embedded and verified

    A shallow embedding of [src/components/sentiment-analyzer.tsx]: the six
    state slots of the component, its two asynchronous operations
    ([fetchHistory], [handleAnalyze]) and the pure helpers the markup uses
    ([getScoreColor], [truncateText]).

    Platform values are modelled as the ECMAScript semantics has them:
    - a string is its sequence of UTF-16 code units ([length] and [slice]
      count code units);
    - a number is a binary64 float (Rocq's primitive floats);
    - a [Date] is a time value in milliseconds or the Invalid Date;
    - an [async] function is a computation over the component's state that
      may complete normally or abruptly (a thrown value), and that records
      what is visible and what is requested at each [await]. *)

From Stdlib Require Import List NArith ZArith Bool Lia String Ascii Floats.
From Stdlib Require DecimalString DecimalZ.
Import ListNotations.

#[local] Set Warnings "-inexact-float".
#[local] Open Scope Z_scope.

(** ** ECMAScript strings *)

Module JS.

(** A string value: its UTF-16 code units. *)
Definition str : Type := list N.

(** A source literal (ASCII only in this component). *)
Fixpoint lit (s : string) : str :=
  match s with
  | EmptyString => []
  | String c s' => N_of_ascii c :: lit s'
  end.

(** WhiteSpace and LineTerminator code points, the ones
    [String.prototype.trim] strips (all of them single code units). *)
Definition isWhiteSpace (c : N) : bool :=
  ((c =? 9) || (c =? 10) || (c =? 11) || (c =? 12) || (c =? 13)
   || (c =? 32) || (c =? 160) || (c =? 5760)
   || ((8192 <=? c) && (c <=? 8202))
   || (c =? 8232) || (c =? 8233) || (c =? 8239) || (c =? 8287)
   || (c =? 12288) || (c =? 65279))%N.

Fixpoint trimStart (s : str) : str :=
  match s with
  | [] => []
  | c :: s' => if isWhiteSpace c then trimStart s' else s
  end.

Definition trimEnd (s : str) : str := rev (trimStart (rev s)).

(** [s.trim()] *)
Definition trim (s : str) : str := trimEnd (trimStart s).

(** [ToBoolean] on a string: only the empty string is falsy. *)
Definition truthy (s : str) : bool :=
  match s with [] => false | _ :: _ => true end.

(** [s.length] *)
Definition length (s : str) : Z := Z.of_nat (List.length s).

(** A relative index of [slice], resolved against the length: negative
    indices count from the end, everything is clamped to [0, len]. *)
Definition clampIndex (len i : Z) : Z :=
  if i <? 0 then Z.max (len + i) 0 else Z.min i len.

(** [s.slice(start, end)] for integral arguments. *)
Definition slice (s : str) (start stop : Z) : str :=
  let len := length s in
  let from := clampIndex len start in
  let to := clampIndex len stop in
  firstn (Z.to_nat (to - from)) (skipn (Z.to_nat from) s).

(** [s.replace(/\/$/, "")]: one trailing slash removed. *)
Definition stripTrailingSlash (s : str) : str :=
  match rev s with
  | c :: r => if (c =? 47)%N then rev r else s
  | [] => s
  end.

(** [s === t] on strings. *)
Fixpoint eqb (s t : str) : bool :=
  match s, t with
  | [], [] => true
  | c :: s', d :: t' => (c =? d)%N && eqb s' t'
  | _, _ => false
  end.

(** [s.split(/\s+/)], read from left to right: [piece] holds (reversed) the
    code units since the last separator, [inRun] tells that the previous
    code unit was white space.  A separator is a maximal run of white
    space; a run at either end leaves an empty piece there, and the empty
    string splits into one empty piece. *)
Fixpoint splitRuns (inRun : bool) (piece : str) (s : str) : list str :=
  match s with
  | [] => [rev piece]
  | c :: s' =>
      if isWhiteSpace c
      then (if inRun then splitRuns true [] s'
            else rev piece :: splitRuns true [] s')
      else splitRuns false (c :: piece) s'
  end.

Definition splitWhiteSpace (s : str) : list str := splitRuns false [] s.

(** [String(n)] for an integral number [n] (below 10^21 in magnitude, where
    the decimal digits are written out in full). *)
Definition ofInteger (n : Z) : str :=
  lit (DecimalString.NilEmpty.string_of_int (Z.to_int n)).

(** A [Date]: a time value in milliseconds since the epoch, or the
    Invalid Date (time value NaN). *)
Inductive Date : Type :=
| ValidDate (ms : Z)
| InvalidDate.

(** A thrown value, as far as [catch] blocks of the component look at it:
    [error instanceof Error ? error.message : fallback]. *)
Inductive Thrown : Type :=
| ErrorObject (message : str)
| OtherValue.

End JS.

(** ** Data model *)

Inductive Sentiment : Type := Positive | Negative | Neutral.

(** [interface AnalysisResult] *)
Module AnalysisResult.
Record t : Type := mk
  { id : option JS.str;
    text : JS.str;
    sentiment : Sentiment;
    score : float;
    timestamp : JS.Date }.
End AnalysisResult.

(** The body of a successful [POST /analyze], as [handleAnalyze] types it. *)
Module AnalyzeData.
Record t : Type := mk
  { input_text : JS.str;
    sentiment : Sentiment;
    compound_score : float }.
End AnalyzeData.

(** One element of the body of [GET /history], as [fetchHistory] types it. *)
Module HistoryItem.
Record t : Type := mk
  { id : JS.str;
    input_text : JS.str;
    sentiment : Sentiment;
    compound_score : float;
    created_at : JS.str }.
End HistoryItem.

(** ** Pure helpers of the markup *)

Inductive ScoreColor : Type := text_positive | text_negative | text_neutral.

(** The class name a [ScoreColor] stands for. *)
Definition className (c : ScoreColor) : JS.str :=
  match c with
  | text_positive => JS.lit "text-positive"
  | text_negative => JS.lit "text-negative"
  | text_neutral => JS.lit "text-neutral"
  end.

Definition getScoreColor (score : float) : ScoreColor :=
  if (0.1 <? score)%float then text_positive
  else if (score <? -0.1)%float then text_negative
  else text_neutral.

(** The colour of the score of a record, as the markup computes it:
    [getScoreColor(result.score)], [getScoreColor(item.score)]. *)
Definition scoreColorOf (r : AnalysisResult.t) : ScoreColor :=
  getScoreColor (AnalysisResult.score r).

(** The values of the union type ["Positive" | "Negative" | "Neutral"] are
    these strings. *)
Definition sentimentString (s : Sentiment) : JS.str :=
  match s with
  | Positive => JS.lit "Positive"
  | Negative => JS.lit "Negative"
  | Neutral => JS.lit "Neutral"
  end.

Inductive Icon : Type := TrendingUp | TrendingDown | Minus.

Definition getSentimentIcon (sentiment : JS.str) : Icon :=
  if JS.eqb sentiment (JS.lit "Positive") then TrendingUp
  else if JS.eqb sentiment (JS.lit "Negative") then TrendingDown
  else Minus.

Definition getSentimentColor (sentiment : JS.str) : JS.str :=
  if JS.eqb sentiment (JS.lit "Positive")
  then JS.lit "bg-positive/20 text-positive border-positive/30"
  else if JS.eqb sentiment (JS.lit "Negative")
  then JS.lit "bg-negative/20 text-negative border-negative/30"
  else JS.lit "bg-neutral/20 text-neutral border-neutral/30".

(** [score > 0 ? "+" : ""], written before [score.toFixed(2)]. *)
Definition scoreSign (score : float) : JS.str :=
  if (0 <? score)%float then JS.lit "+" else JS.lit "".

(** The [background] of the score bar. *)
Definition barBackground (score : float) : JS.str :=
  if (0.1 <? score)%float then JS.lit "var(--positive)"
  else if (score <? -0.1)%float then JS.lit "var(--negative)"
  else JS.lit "var(--neutral)".

(** [item.timestamp.getTime()] inside a template literal: the time value in
    decimal, or ["NaN"] for the Invalid Date. *)
Definition getTimeString (d : JS.Date) : JS.str :=
  match d with
  | JS.ValidDate ms => JS.ofInteger ms
  | JS.InvalidDate => JS.lit "NaN"
  end.

(** The [key] of a history row: [`${item.timestamp.getTime()}-${index}`]. *)
Definition rowKey (item : AnalysisResult.t) (index : nat) : JS.str :=
  getTimeString (AnalysisResult.timestamp item)
  ++ JS.lit "-" ++ JS.ofInteger (Z.of_nat index).

(** The keys of the rows of [history.map((item, index) => ...)], from row
    [index] on. *)
Fixpoint rowKeysFrom (index : nat) (items : list AnalysisResult.t) : list JS.str :=
  match items with
  | [] => []
  | item :: items' => rowKey item index :: rowKeysFrom (S index) items'
  end.

Definition rowKeys (items : list AnalysisResult.t) : list JS.str :=
  rowKeysFrom 0 items.

(** [text.trim().split(/\s+/).filter(Boolean)], whose length is the word
    counter under the text area. *)
Definition words (text : JS.str) : list JS.str :=
  filter JS.truthy (JS.splitWhiteSpace (JS.trim text)).

Definition ellipsis : JS.str := JS.lit "...".

Definition defaultMaxLength : Z := 60.

Definition truncateText (text : JS.str) (maxLength : Z) : JS.str :=
  if JS.length text <=? maxLength then text
  else JS.slice text 0 maxLength ++ ellipsis.

(** ** The component's state: one field per [useState] slot *)

Record State : Type := mkState
  { text : JS.str;
    result : option AnalysisResult.t;
    history : list AnalysisResult.t;
    isAnalyzing : bool;
    isLoadingHistory : bool;
    errorMessage : option JS.str }.

(** The initial values given to [useState]. *)
Definition initialState : State :=
  {| text := [];
     result := None;
     history := [];
     isAnalyzing := false;
     isLoadingHistory := false;
     errorMessage := None |}.

(** ** The network and the runtime, as the component sees them *)

Inductive Method : Type := GET | POST.

(** [JSON.stringify({ text })] *)
Inductive Payload : Type := JSON_text (text : JS.str).

Record Request : Type := mkRequest
  { url : JS.str;
    method : Method;
    headers : list (JS.str * JS.str);
    body : option Payload }.

(** What [await response.json()] does. *)
Inductive JsonOutcome (A : Type) : Type :=
| JsonRejects (e : JS.Thrown)
| JsonResolves (data : A).
Arguments JsonRejects {A} e.
Arguments JsonResolves {A} data.

Record Response (A : Type) : Type := mkResponse
  { ok : bool;
    json_outcome : JsonOutcome A }.
Arguments mkResponse {A} ok json_outcome.
Arguments ok {A} r.
Arguments json_outcome {A} r.

(** What [await fetch(...)] does. *)
Inductive FetchOutcome (A : Type) : Type :=
| FetchRejects (e : JS.Thrown)
| FetchResolves (response : Response A).
Arguments FetchRejects {A} e.
Arguments FetchResolves {A} response.

(** Everything outside the component: the build-time environment variable,
    the remote service behind each endpoint, the clock read by [new Date()]
    (indexed by the number of suspensions the running operation has gone
    through) and the runtime's date parser behind [new Date(string)].
    A decoded body has the shape the component casts it to; the cast is
    not checked at run time, and a service that answers with JSON of
    another shape is not covered by this model. *)
Record World : Type := mkWorld
  { NEXT_PUBLIC_API_URL : option JS.str;
    analyzeService : Request -> FetchOutcome AnalyzeData.t;
    historyService : Request -> FetchOutcome (list HistoryItem.t);
    clock : nat -> Z;
    Date_parse : JS.str -> JS.Date }.

(** ** Asynchronous computations *)

Inductive Pending : Type :=
| Fetching (request : Request)
| Decoding.

(** One suspension: the state the user sees while the operation waits for
    the network, and what it waits for.  The component is a client
    component, whose setter calls are batched: the writes made between two
    suspensions are committed together, so these are the states a render
    can show. *)
Inductive Event : Type := Await (visible : State) (pending : Pending).

Record Machine : Type := mkMachine
  { ui : State;
    awaits : nat;
    log : list Event }.

Inductive Completion (A : Type) : Type :=
| Normal (a : A)
| Abrupt (e : JS.Thrown).
Arguments Normal {A} a.
Arguments Abrupt {A} e.

Definition Async (A : Type) : Type := Machine -> Machine * Completion A.

Definition ret {A} (a : A) : Async A := fun m => (m, Normal a).

Definition bind {A B} (c : Async A) (k : A -> Async B) : Async B :=
  fun m =>
    match c m with
    | (m', Normal a) => k a m'
    | (m', Abrupt e) => (m', Abrupt e)
    end.

Definition throw {A} (e : JS.Thrown) : Async A := fun m => (m, Abrupt e).

(** [try { body } catch (error) { handler } finally { finalizer }] *)
Definition tryCatchFinally {A} (body : Async A) (handler : JS.Thrown -> Async A)
    (finalizer : Async unit) : Async A :=
  fun m =>
    let (m1, c1) :=
      match body m with
      | (m', Normal a) => (m', Normal a)
      | (m', Abrupt e) => handler e m'
      end in
    match finalizer m1 with
    | (m2, Normal _) => (m2, c1)
    | (m2, Abrupt e) => (m2, Abrupt e)
    end.

Declare Scope async_scope.
Delimit Scope async_scope with async.
Notation "x <- c ;; k" := (bind c (fun x => k))
  (at level 100, c at next level, right associativity) : async_scope.
Notation "c ;; k" := (bind c (fun _ => k))
  (at level 100, right associativity) : async_scope.

(** Reading and writing the state slots. *)
Definition get : Async State := fun m => (m, Normal (ui m)).

Definition update (f : State -> State) : Async unit :=
  fun m => ({| ui := f (ui m); awaits := awaits m; log := log m |}, Normal tt).

Definition setText (v : JS.str) : Async unit :=
  update (fun s => {| text := v; result := result s; history := history s;
                      isAnalyzing := isAnalyzing s;
                      isLoadingHistory := isLoadingHistory s;
                      errorMessage := errorMessage s |}).

Definition setResult (v : option AnalysisResult.t) : Async unit :=
  update (fun s => {| text := text s; result := v; history := history s;
                      isAnalyzing := isAnalyzing s;
                      isLoadingHistory := isLoadingHistory s;
                      errorMessage := errorMessage s |}).

Definition setHistory (v : list AnalysisResult.t) : Async unit :=
  update (fun s => {| text := text s; result := result s; history := v;
                      isAnalyzing := isAnalyzing s;
                      isLoadingHistory := isLoadingHistory s;
                      errorMessage := errorMessage s |}).

Definition setIsAnalyzing (v : bool) : Async unit :=
  update (fun s => {| text := text s; result := result s; history := history s;
                      isAnalyzing := v;
                      isLoadingHistory := isLoadingHistory s;
                      errorMessage := errorMessage s |}).

Definition setIsLoadingHistory (v : bool) : Async unit :=
  update (fun s => {| text := text s; result := result s; history := history s;
                      isAnalyzing := isAnalyzing s;
                      isLoadingHistory := v;
                      errorMessage := errorMessage s |}).

Definition setErrorMessage (v : option JS.str) : Async unit :=
  update (fun s => {| text := text s; result := result s; history := history s;
                      isAnalyzing := isAnalyzing s;
                      isLoadingHistory := isLoadingHistory s;
                      errorMessage := v |}).

(** Suspending on [pending]: the current state becomes visible. *)
Definition suspend (pending : Pending) (m : Machine) : Machine :=
  {| ui := ui m; awaits := S (awaits m); log := log m ++ [Await (ui m) pending] |}.

(** [await fetch(request)] against one endpoint of the service. *)
Definition fetch {A} (service : Request -> FetchOutcome A) (request : Request)
    : Async (Response A) :=
  fun m =>
    match service request with
    | FetchRejects e => (suspend (Fetching request) m, Abrupt e)
    | FetchResolves response => (suspend (Fetching request) m, Normal response)
    end.

(** [await response.json()] *)
Definition json {A} (response : Response A) : Async A :=
  fun m =>
    match json_outcome response with
    | JsonRejects e => (suspend Decoding m, Abrupt e)
    | JsonResolves data => (suspend Decoding m, Normal data)
    end.

(** ** The component's operations *)

Section Component.

Variable w : World.

#[local] Open Scope async_scope.

(** [new Date()] *)
Definition Date_now : Async JS.Date :=
  fun m => (m, Normal (JS.ValidDate (clock w (awaits m)))).

Definition defaultApiBaseUrl : JS.str := JS.lit "http://localhost:8000".

(** [process.env.NEXT_PUBLIC_API_URL?.replace(/\/$/, "") || "http://localhost:8000"] *)
Definition apiBaseUrl : JS.str :=
  match NEXT_PUBLIC_API_URL w with
  | Some v =>
      let stripped := JS.stripTrailingSlash v in
      if JS.truthy stripped then stripped else defaultApiBaseUrl
  | None => defaultApiBaseUrl
  end.

Definition historyRequest : Request :=
  {| url := apiBaseUrl ++ JS.lit "/history?limit=10";
     method := GET;
     headers := [];
     body := None |}.

Definition analyzeRequest (text : JS.str) : Request :=
  {| url := apiBaseUrl ++ JS.lit "/analyze";
     method := POST;
     headers := [(JS.lit "Content-Type", JS.lit "application/json")];
     body := Some (JSON_text (JS.trim text)) |}.

(** The callback of [data.map] in [fetchHistory]. *)
Definition mapItem (item : HistoryItem.t) : AnalysisResult.t :=
  {| AnalysisResult.id := Some (HistoryItem.id item);
     AnalysisResult.text := HistoryItem.input_text item;
     AnalysisResult.sentiment := HistoryItem.sentiment item;
     AnalysisResult.score := HistoryItem.compound_score item;
     AnalysisResult.timestamp := Date_parse w (HistoryItem.created_at item) |}.

(** [error instanceof Error ? error.message : fallback] *)
Definition messageOf (error : JS.Thrown) (fallback : JS.str) : JS.str :=
  match error with
  | JS.ErrorObject message => message
  | JS.OtherValue => fallback
  end.

Definition fetchHistory : Async unit :=
  setIsLoadingHistory true ;;
  setErrorMessage None ;;
  tryCatchFinally
    (response <- fetch (historyService w) historyRequest ;;
     (if negb (ok response)
      then throw (JS.ErrorObject (JS.lit "Failed to load history"))
      else ret tt) ;;
     data <- json response ;;
     let mapped := map mapItem data in
     setHistory mapped)
    (fun error =>
       setErrorMessage (Some (messageOf error (JS.lit "Failed to load history"))))
    (setIsLoadingHistory false).

(** The record [handleAnalyze] builds from the response body. *)
Definition newResult (data : AnalyzeData.t) (now : JS.Date) : AnalysisResult.t :=
  {| AnalysisResult.id := None;
     AnalysisResult.text := AnalyzeData.input_text data;
     AnalysisResult.sentiment := AnalyzeData.sentiment data;
     AnalysisResult.score := AnalyzeData.compound_score data;
     AnalysisResult.timestamp := now |}.

(** [text] is the draft of the render that created the handler, read once
    here.  [await fetchHistory()] waits for nothing of its own: once the
    refresh has settled the handler goes on in the same turn, so the
    suspensions of the call are those of [fetchHistory]. *)
Definition handleAnalyze : Async unit :=
  s <- get ;;
  if negb (JS.truthy (JS.trim (text s))) then ret tt
  else
    setIsAnalyzing true ;;
    setErrorMessage None ;;
    tryCatchFinally
      (response <- fetch (analyzeService w) (analyzeRequest (text s)) ;;
       (if negb (ok response)
        then throw (JS.ErrorObject (JS.lit "Analysis failed. Please try again."))
        else ret tt) ;;
       data <- json response ;;
       now <- Date_now ;;
       setResult (Some (newResult data now)) ;;
       fetchHistory)
      (fun error =>
         setErrorMessage (Some (messageOf error (JS.lit "Analysis failed."))))
      (setIsAnalyzing false).

End Component.

(** ** What the markup shows of a state *)

(** [disabled={!text.trim() || isAnalyzing}] on the Analyze button. *)
Definition analyzeDisabled (s : State) : bool :=
  negb (JS.truthy (JS.trim (text s))) || isAnalyzing s.

(** [{errorMessage && (...)}]: the banner and its text, when there is one. *)
Definition errorBanner (s : State) : option JS.str :=
  match errorMessage s with
  | Some message => if JS.truthy message then Some message else None
  | None => None
  end.

(** [(history.length > 0 || isLoadingHistory) && (...)]: the history card. *)
Definition historyCardShown (s : State) : bool :=
  (0 <? Z.of_nat (List.length (history s))) || isLoadingHistory s.

(** [{isLoadingHistory && (...)}] inside the history card. *)
Definition loadingRowShown (s : State) : bool :=
  historyCardShown s && isLoadingHistory s.

(** [{!isLoadingHistory && history.length === 0 && (...)}] inside the
    history card: the "No history yet" placeholder. *)
Definition emptyPlaceholderShown (s : State) : bool :=
  historyCardShown s
  && (negb (isLoadingHistory s) && (Z.of_nat (List.length (history s)) =? 0)).

(** ** Vocabulary of the statements *)

Definition visible (ev : Event) : State := let (s, _) := ev in s.
Definition pending (ev : Event) : Pending := let (_, p) := ev in p.

(** An operation started on its own, from state [s]. *)
Definition boot (s : State) : Machine := {| ui := s; awaits := 0; log := [] |}.

(** The state an operation leaves behind. *)
Definition after {A} (op : Async A) (s : State) : State := ui (fst (op (boot s))).

(** The ways a call fails: the request never completes, the status is not
    2xx, or the body cannot be decoded. *)
Inductive Failing {A : Type} : FetchOutcome A -> Prop :=
| network_error (e : JS.Thrown) : Failing (FetchRejects e)
| status_not_ok (j : JsonOutcome A) : Failing (FetchResolves (mkResponse false j))
| decode_error (e : JS.Thrown) :
    Failing (FetchResolves (mkResponse true (JsonRejects e))).

(** The value the awaits of a call reject with, when they do: what
    [fetch] rejects with, or else what [response.json()] rejects with once
    the status has been found to be 2xx. *)
Definition rejection {A : Type} (o : FetchOutcome A) : option JS.Thrown :=
  match o with
  | FetchRejects e => Some e
  | FetchResolves response =>
      if ok response
      then match json_outcome response with
           | JsonRejects e => Some e
           | JsonResolves _ => None
           end
      else None
  end.

(** The message that belongs to a failing call, given the text [notOk] of
    the error thrown on a status that is not 2xx and the [fallback] text
    of the [catch] block: [notOk] after such a status; after a rejection,
    the thrown [Error]'s own message, or [fallback] when the thrown value
    is no [Error]. *)
Inductive Reported {A : Type} (notOk fallback : JS.str)
  : FetchOutcome A -> JS.str -> Prop :=
| reported_network_error (message : JS.str) :
    Reported notOk fallback (FetchRejects (JS.ErrorObject message)) message
| reported_network_other :
    Reported notOk fallback (FetchRejects JS.OtherValue) fallback
| reported_status (j : JsonOutcome A) :
    Reported notOk fallback (FetchResolves (mkResponse false j)) notOk
| reported_decode_error (message : JS.str) :
    Reported notOk fallback
      (FetchResolves (mkResponse true (JsonRejects (JS.ErrorObject message))))
      message
| reported_decode_other :
    Reported notOk fallback
      (FetchResolves (mkResponse true (JsonRejects JS.OtherValue))) fallback.

(** A 2xx response whose body decodes to [data]. *)
Definition succeeds {A : Type} (data : A) : FetchOutcome A :=
  FetchResolves (mkResponse true (JsonResolves data)).

(** The state shown while a history refresh started in [s] is in flight. *)
Definition loadingView (s : State) : State :=
  {| text := text s; result := result s; history := history s;
     isAnalyzing := isAnalyzing s;
     isLoadingHistory := true;
     errorMessage := None |}.

(** The state shown while an analysis started in [s] is in flight. *)
Definition analyzingView (s : State) : State :=
  {| text := text s; result := result s; history := history s;
     isAnalyzing := true;
     isLoadingHistory := isLoadingHistory s;
     errorMessage := None |}.

(** What is on display while an operation waits: the refresh in flight, and
    no error message. *)
Definition refreshing (ev : Event) : Prop :=
  isLoadingHistory (visible ev) = true /\ errorMessage (visible ev) = None.

(** The states the component can be in, when every [World] it runs against
    satisfies [admits]: the mount effect and the analyze button start the
    two operations, typing replaces the draft. *)
Inductive Reachable (admits : World -> Prop) : State -> Prop :=
| reach_initial : Reachable admits initialState
| reach_fetchHistory (w : World) (s : State) :
    admits w -> Reachable admits s -> Reachable admits (after (fetchHistory w) s)
| reach_setText (v : JS.str) (s : State) :
    Reachable admits s -> Reachable admits (after (setText v) s)
| reach_handleAnalyze (w : World) (s : State) :
    admits w -> Reachable admits s -> Reachable admits (after (handleAnalyze w) s).

Definition anyWorld (w : World) : Prop := True.

(** The service answers the history request with at most 10 items. *)
Definition honoursLimit (w : World) : Prop :=
  forall data, historyService w (historyRequest w) = succeeds data ->
               (List.length data <= 10)%nat.

(** The state a refresh started in [s] ends in when it fails with [msg]. *)
Definition refreshFailed (s : State) (msg : JS.str) : State :=
  {| text := text s; result := result s; history := history s;
     isAnalyzing := isAnalyzing s;
     isLoadingHistory := false;
     errorMessage := Some msg |}.

(** The state an analysis started in [s] ends in when it fails with [msg]. *)
Definition analysisFailed (s : State) (msg : JS.str) : State :=
  {| text := text s; result := result s; history := history s;
     isAnalyzing := false;
     isLoadingHistory := isLoadingHistory s;
     errorMessage := Some msg |}.

(** The machine of a [handleAnalyze] started in [m], at the point where the
    response body [data] has been decoded and [setResult(newResult)] has
    run: two suspensions later, and about to call [fetchHistory]. *)
Definition submitted (w : World) (m : Machine) (data : AnalyzeData.t) : Machine :=
  {| ui := {| text := text (ui m);
              result := Some (newResult data
                                (JS.ValidDate (clock w (S (S (awaits m))))));
              history := history (ui m);
              isAnalyzing := true;
              isLoadingHistory := isLoadingHistory (ui m);
              errorMessage := None |};
     awaits := S (S (awaits m));
     log := log m ++ [Await (analyzingView (ui m))
                        (Fetching (analyzeRequest w (text (ui m))));
                      Await (analyzingView (ui m)) Decoding] |}.

Definition notWhiteSpace (c : N) : bool := negb (JS.isWhiteSpace c).

(** The requests sent at the suspensions [evs], in order. *)
Definition requests (evs : list Event) : list Request :=
  flat_map (fun ev => match pending ev with
                      | Fetching request => [request]
                      | Decoding => []
                      end) evs.

(** The suspensions an operation adds to the log of the machine it starts in. *)
Definition newEvents {A} (op : Async A) (m : Machine) : list Event :=
  skipn (List.length (log m)) (log (fst (op m))).

(** ** A reference runtime for the examples *)

Module Runtime.

Definition digit (c : N) : option Z :=
  if ((48 <=? c) && (c <=? 57))%N then Some (Z.of_N c - 48) else None.

Fixpoint digits (acc : Z) (s : JS.str) : option Z :=
  match s with
  | [] => Some acc
  | c :: s' =>
      match digit c with
      | Some d => digits (10 * acc + d) s'
      | None => None
      end
  end.

(** Days from 1970-01-01 to the civil date [y]-[m]-[d]; a day past the end
    of the month counts on into the next one. *)
Definition daysFromCivil (y m d : Z) : Z :=
  let y' := if m <=? 2 then y - 1 else y in
  let era := y' / 400 in
  let yoe := y' - era * 400 in
  let mp := (m + 9) mod 12 in
  let doy := (153 * mp + 2) / 5 + d - 1 in
  let doe := yoe * 365 + yoe / 4 - yoe / 100 + doy in
  era * 146097 + doe - 719468.

Definition makeDate (y mo d h mi s ms : Z) : JS.Date :=
  if (1 <=? mo) && (mo <=? 12) && (1 <=? d) && (d <=? 31)
     && (((h <=? 23) && (mi <=? 59) && (s <=? 59))
         || ((h =? 24) && (mi =? 0) && (s =? 0) && (ms =? 0)))
  then JS.ValidDate
         ((((daysFromCivil y mo d * 24 + h) * 60 + mi) * 60 + s) * 1000 + ms)
  else JS.InvalidDate.

(** A stand-in for [new Date(string)], for the examples only (the
    theorems hold for every [Date_parse]).  It reads the form [toISOString]
    writes, [YYYY-MM-DDTHH:mm:ss.sssZ], with days up to 31 counting on into
    the next month and hour 24 as the midnight that ends the day; every
    other string gives the Invalid Date here.  Engines read more forms
    than this one (shorter ISO forms, legacy formats): the examples use
    only the full form and strings that no engine reads as a date. *)
Definition parse (s : JS.str) : JS.Date :=
  match s with
  | [y1; y2; y3; y4; a; o1; o2; b; d1; d2; t; h1; h2; c; m1; m2; d; s1; s2;
     e; f1; f2; f3; z] =>
      if ((a =? 45) && (b =? 45) && (t =? 84) && (c =? 58) && (d =? 58)
          && (e =? 46) && (z =? 90))%N
      then
        match digits 0 [y1; y2; y3; y4], digits 0 [o1; o2], digits 0 [d1; d2],
              digits 0 [h1; h2], digits 0 [m1; m2], digits 0 [s1; s2],
              digits 0 [f1; f2; f3] with
        | Some y, Some mo, Some dd, Some h, Some mi, Some ss, Some ms =>
            makeDate y mo dd h mi ss ms
        | _, _, _, _, _, _, _ => JS.InvalidDate
        end
      else JS.InvalidDate
  | _ => JS.InvalidDate
  end.

(** Sample data. *)
Definition blankDraft : JS.str := [32; 9; 10; 160]%N.

Definition lovely : AnalyzeData.t :=
  {| AnalyzeData.input_text := JS.lit "I love this product!";
     AnalyzeData.sentiment := Positive;
     AnalyzeData.compound_score := 0.8 |}.

Definition stored (n : N) (created : string) : HistoryItem.t :=
  {| HistoryItem.id := [48 + n]%N;
     HistoryItem.input_text := JS.lit "I love this product!";
     HistoryItem.sentiment := Positive;
     HistoryItem.compound_score := 0.8;
     HistoryItem.created_at := JS.lit created |}.

Definition wellFormed : HistoryItem.t := stored 1 "2024-05-01T12:30:00.000Z".
Definition malformed : HistoryItem.t := stored 2 "not-a-date".

(** Eleven stored records, one more than the limit the client asks for. *)
Definition eleven : list HistoryItem.t :=
  map (fun n => stored n "2024-05-01T12:30:00.000Z")
      [0; 1; 2; 3; 4; 5; 6; 7; 8; 9; 10]%N.

(** A machine whose draft is [draft], everything else as at start. *)
Definition typed (draft : JS.str) : Machine :=
  boot {| text := draft; result := None; history := [];
          isAnalyzing := false; isLoadingHistory := false;
          errorMessage := None |}.

(** A world with a fixed answer per endpoint, a clock that advances by a
    quarter of a second per suspension, and no environment variable. *)
Definition world (analyze : FetchOutcome AnalyzeData.t)
    (hist : FetchOutcome (list HistoryItem.t)) : World :=
  {| NEXT_PUBLIC_API_URL := None;
     analyzeService := fun _ => analyze;
     historyService := fun _ => hist;
     clock := fun n => 1714566600000 + 250 * Z.of_nat n;
     Date_parse := parse |}.

End Runtime.

(** * Properties *)

Example getScoreColor_boundary :
  getScoreColor 0.1 = text_neutral /\ getScoreColor 0.1000001 = text_positive.
Proof. split; reflexivity. Qed.

Example truncateText_short :
  truncateText (JS.lit "hello") 3 = JS.lit "hel...".
Proof. reflexivity. Qed.

Example Date_parse_iso :
  Runtime.parse (JS.lit "2024-05-01T12:30:00.000Z") = JS.ValidDate 1714566600000
  /\ Runtime.parse (JS.lit "not-a-date") = JS.InvalidDate
  /\ Runtime.parse (JS.lit "2023-02-29T00:00:00.000Z") = JS.ValidDate 1677628800000
  /\ Runtime.parse (JS.lit "2024-05-01T24:00:00.000Z") = JS.ValidDate 1714608000000.
Proof. repeat split; vm_compute; reflexivity. Qed.


(** ** Strings *)

Lemma trimStart_nil (s : JS.str) :
  JS.trimStart s = [] <-> forallb JS.isWhiteSpace s = true.
Proof.
  induction s as [|c s IH]; simpl.
  - split; reflexivity.
  - destruct (JS.isWhiteSpace c); simpl.
    + exact IH.
    + split; discriminate.
Qed.

Lemma trimStart_blank_inv (s : JS.str) :
  forallb JS.isWhiteSpace (JS.trimStart s) = true ->
  forallb JS.isWhiteSpace s = true.
Proof.
  induction s as [|c s IH]; simpl; [reflexivity|].
  destruct (JS.isWhiteSpace c) eqn:Hc; simpl.
  - exact IH.
  - rewrite Hc. discriminate.
Qed.

Lemma forallb_rev {A} (p : A -> bool) (l : list A) :
  forallb p (rev l) = forallb p l.
Proof.
  induction l as [|a l IH]; simpl; [reflexivity|].
  rewrite forallb_app, IH. simpl. rewrite andb_true_r. apply andb_comm.
Qed.

(** [trim] leaves nothing exactly when every code unit is white space. *)
Lemma trim_nil (s : JS.str) :
  JS.trim s = [] <-> forallb JS.isWhiteSpace s = true.
Proof.
  unfold JS.trim, JS.trimEnd. split.
  - intros H. apply trimStart_blank_inv.
    rewrite <- forallb_rev. apply trimStart_nil.
    apply (f_equal (@rev N)) in H. rewrite rev_involutive in H. exact H.
  - intros H. apply trimStart_nil in H. rewrite H. reflexivity.
Qed.

Lemma truthy_trim_false (s : JS.str) :
  JS.truthy (JS.trim s) = false <-> forallb JS.isWhiteSpace s = true.
Proof.
  rewrite <- trim_nil. destruct (JS.trim s); simpl; split; congruence.
Qed.

Lemma slice_prefix (s : JS.str) (n : nat) :
  (n <= List.length s)%nat -> JS.slice s 0 (Z.of_nat n) = firstn n s.
Proof.
  intros Hn. unfold JS.slice, JS.clampIndex, JS.length. simpl.
  destruct (Z.of_nat n <? 0) eqn:Hneg; [lia|].
  rewrite Z.min_l by lia.
  replace (Z.min 0 (Z.of_nat (List.length s))) with 0 by lia.
  rewrite Z.sub_0_r, Nat2Z.id. reflexivity.
Qed.

(** ** Numbers *)

(** A number below [-0.1] is not above [0.1]: the two tests of
    [getScoreColor] never both succeed. *)
Lemma below_not_above (x : float) :
  (x <? -0.1)%float = true -> (0.1 <? x)%float = false.
Proof.
  rewrite !ltb_spec.
  replace (Prim2SF 0.1) with (S754_finite false 7205759403792794 (-56))
    by (vm_compute; reflexivity).
  replace (Prim2SF (-0.1)) with (S754_finite true 7205759403792794 (-56))
    by (vm_compute; reflexivity).
  unfold SFltb, SFcompare.
  destruct (Prim2SF x) as [s|s| |s m e]; try destruct s; try discriminate;
    reflexivity.
Qed.

(** ** Running the operations *)

(** Unfolds an operation down to the consultations of the world. *)
Ltac unfold_async :=
  cbv [handleAnalyze fetchHistory tryCatchFinally bind ret throw get update
       setText setResult setHistory setIsAnalyzing setIsLoadingHistory
       setErrorMessage fetch json Date_now suspend submitted].

Section RefreshRuns.

Variable w : World.
Variable m : Machine.

Lemma fetchHistory_succeeds (data : list HistoryItem.t) :
  historyService w (historyRequest w) = succeeds data ->
  fetchHistory w m =
    ({| ui := {| text := text (ui m); result := result (ui m);
                 history := map (mapItem w) data;
                 isAnalyzing := isAnalyzing (ui m);
                 isLoadingHistory := false;
                 errorMessage := None |};
        awaits := S (S (awaits m));
        log := log m ++ [Await (loadingView (ui m)) (Fetching (historyRequest w));
                         Await (loadingView (ui m)) Decoding] |},
     Normal tt).
Proof.
  intros H. unfold_async. rewrite H. cbn. rewrite <- app_assoc. reflexivity.
Qed.

Lemma fetchHistory_network_error (e : JS.Thrown) :
  historyService w (historyRequest w) = FetchRejects e ->
  fetchHistory w m =
    ({| ui := refreshFailed (ui m) (messageOf e (JS.lit "Failed to load history"));
        awaits := S (awaits m);
        log := log m ++ [Await (loadingView (ui m)) (Fetching (historyRequest w))] |},
     Normal tt).
Proof. intros H. unfold_async. rewrite H. reflexivity. Qed.

Lemma fetchHistory_status_not_ok (j : JsonOutcome (list HistoryItem.t)) :
  historyService w (historyRequest w) = FetchResolves (mkResponse false j) ->
  fetchHistory w m =
    ({| ui := refreshFailed (ui m) (JS.lit "Failed to load history");
        awaits := S (awaits m);
        log := log m ++ [Await (loadingView (ui m)) (Fetching (historyRequest w))] |},
     Normal tt).
Proof. intros H. unfold_async. rewrite H. reflexivity. Qed.

Lemma fetchHistory_decode_error (e : JS.Thrown) :
  historyService w (historyRequest w)
    = FetchResolves (mkResponse true (JsonRejects e)) ->
  fetchHistory w m =
    ({| ui := refreshFailed (ui m) (messageOf e (JS.lit "Failed to load history"));
        awaits := S (S (awaits m));
        log := log m ++ [Await (loadingView (ui m)) (Fetching (historyRequest w));
                         Await (loadingView (ui m)) Decoding] |},
     Normal tt).
Proof.
  intros H. unfold_async. rewrite H. cbn. rewrite <- app_assoc. reflexivity.
Qed.

(** What every refresh does, whatever the service answers. *)
Lemma fetchHistory_frame :
  exists (final : State) (rest : list Event) (n : nat),
    fetchHistory w m =
      ({| ui := final;
          awaits := n;
          log := log m ++ Await (loadingView (ui m)) (Fetching (historyRequest w))
                          :: rest |},
       Normal tt)
    /\ text final = text (ui m)
    /\ result final = result (ui m)
    /\ isAnalyzing final = isAnalyzing (ui m)
    /\ isLoadingHistory final = false
    /\ Forall (fun ev => visible ev = loadingView (ui m)) rest.
Proof.
  destruct (historyService w (historyRequest w)) as [e | [[|] [e | data]]] eqn:H.
  - rewrite (fetchHistory_network_error e H).
    eexists _, [], _. repeat split; constructor.
  - rewrite (fetchHistory_decode_error e H).
    eexists _, [_], _. repeat split; repeat constructor.
  - rewrite (fetchHistory_succeeds data H).
    eexists _, [_], _. repeat split; repeat constructor.
  - rewrite (fetchHistory_status_not_ok _ H).
    eexists _, [], _. repeat split; constructor.
  - rewrite (fetchHistory_status_not_ok _ H).
    eexists _, [], _. repeat split; constructor.
Qed.

Lemma fetchHistory_completes : snd (fetchHistory w m) = Normal tt.
Proof.
  destruct fetchHistory_frame as (final & rest & n & E & _). rewrite E. reflexivity.
Qed.

(** A refresh either keeps the history or stores the whole response. *)
Lemma fetchHistory_history :
  history (ui (fst (fetchHistory w m))) = history (ui m)
  \/ exists data, historyService w (historyRequest w) = succeeds data
                  /\ history (ui (fst (fetchHistory w m))) = map (mapItem w) data.
Proof.
  destruct (historyService w (historyRequest w)) as [e | [[|] [e | data]]] eqn:H.
  - rewrite (fetchHistory_network_error e H). left. reflexivity.
  - rewrite (fetchHistory_decode_error e H). left. reflexivity.
  - rewrite (fetchHistory_succeeds data H). right. exists data. split; reflexivity.
  - rewrite (fetchHistory_status_not_ok _ H). left. reflexivity.
  - rewrite (fetchHistory_status_not_ok _ H). left. reflexivity.
Qed.

End RefreshRuns.

Section AnalysisRuns.

Variable w : World.
Variable m : Machine.

(** The early return of [handleAnalyze]. *)
Lemma handleAnalyze_blank :
  JS.truthy (JS.trim (text (ui m))) = false ->
  handleAnalyze w m = (m, Normal tt).
Proof. intros H. unfold_async. rewrite H. reflexivity. Qed.

Hypothesis draft_not_blank : JS.truthy (JS.trim (text (ui m))) = true.

Lemma handleAnalyze_network_error (e : JS.Thrown) :
  analyzeService w (analyzeRequest w (text (ui m))) = FetchRejects e ->
  handleAnalyze w m =
    ({| ui := analysisFailed (ui m) (messageOf e (JS.lit "Analysis failed."));
        awaits := S (awaits m);
        log := log m ++ [Await (analyzingView (ui m))
                        (Fetching (analyzeRequest w (text (ui m))))] |},
     Normal tt).
Proof. intros H. unfold_async. rewrite draft_not_blank. cbn. rewrite H. reflexivity. Qed.

Lemma handleAnalyze_status_not_ok (j : JsonOutcome AnalyzeData.t) :
  analyzeService w (analyzeRequest w (text (ui m)))
    = FetchResolves (mkResponse false j) ->
  handleAnalyze w m =
    ({| ui := analysisFailed (ui m) (JS.lit "Analysis failed. Please try again.");
        awaits := S (awaits m);
        log := log m ++ [Await (analyzingView (ui m))
                        (Fetching (analyzeRequest w (text (ui m))))] |},
     Normal tt).
Proof. intros H. unfold_async. rewrite draft_not_blank. cbn. rewrite H. reflexivity. Qed.

Lemma handleAnalyze_decode_error (e : JS.Thrown) :
  analyzeService w (analyzeRequest w (text (ui m)))
    = FetchResolves (mkResponse true (JsonRejects e)) ->
  handleAnalyze w m =
    ({| ui := analysisFailed (ui m) (messageOf e (JS.lit "Analysis failed."));
        awaits := S (S (awaits m));
        log := log m ++ [Await (analyzingView (ui m))
                          (Fetching (analyzeRequest w (text (ui m))));
                        Await (analyzingView (ui m)) Decoding] |},
     Normal tt).
Proof.
  intros H. unfold_async. rewrite draft_not_blank. cbn. rewrite H. cbn.
  rewrite <- app_assoc. reflexivity.
Qed.

(** On success the analysis hands over to [fetchHistory], then clears its
    busy flag. *)
Lemma handleAnalyze_succeeds (data : AnalyzeData.t) :
  analyzeService w (analyzeRequest w (text (ui m))) = succeeds data ->
  handleAnalyze w m
    = setIsAnalyzing false (fst (fetchHistory w (submitted w m data))).
Proof.
  intros H.
  cbv [handleAnalyze tryCatchFinally bind ret throw get update setResult
       setIsAnalyzing setErrorMessage fetch json Date_now suspend].
  pose proof (fetchHistory_frame w) as frame. revert frame.
  generalize (fetchHistory w) as refresh. intros refresh frame.
  destruct (frame (submitted w m data)) as (final & rest & n & E & _).
  rewrite draft_not_blank. cbn. rewrite H. cbn. rewrite <- app_assoc.
  unfold submitted, analyzingView in E |- *. cbn in E |- *.
  rewrite E. reflexivity.
Qed.

End AnalysisRuns.

(** * The specification, property by property *)

(** C4: when the draft is empty or holds nothing but white space,
    [handleAnalyze] returns at once: the machine it leaves is the machine it
    found, so no request was sent (the log has no new suspension) and no
    state slot changed, and it completes normally, without an error. *)
Theorem blank_draft_is_ignored (w : World) (m : Machine) :
  forallb JS.isWhiteSpace (text (ui m)) = true ->
  handleAnalyze w m = (m, Normal tt).
Proof.
  intros Hblank. apply handleAnalyze_blank. apply truthy_trim_false. exact Hblank.
Qed.

Lemma blank_draft_is_ignored_witness :
  let w := Runtime.world (succeeds Runtime.lovely) (succeeds []) in
  let m := Runtime.typed Runtime.blankDraft in
  forallb JS.isWhiteSpace (text (ui m)) = true
  /\ handleAnalyze w m = (m, Normal tt).
Proof.
  split; [reflexivity|].
  apply (blank_draft_is_ignored
           (Runtime.world (succeeds Runtime.lovely) (succeeds []))
           (Runtime.typed Runtime.blankDraft)).
  reflexivity.
Defined.

(** C7: [getScoreColor] answers the positive class exactly when the score is
    above 0.1, the negative class exactly when it is below -0.1, and the
    neutral class in every other case; 0.1 and -0.1 themselves are neutral;
    and the colour of a record's score does not depend on its sentiment. *)
Theorem getScoreColor_thresholds (score : float) :
  (getScoreColor score = text_positive <-> (0.1 <? score)%float = true)
  /\ (getScoreColor score = text_negative <-> (score <? -0.1)%float = true)
  /\ (getScoreColor score = text_neutral
      <-> (0.1 <? score)%float = false /\ (score <? -0.1)%float = false)
  /\ getScoreColor 0.1 = text_neutral
  /\ getScoreColor (-0.1) = text_neutral
  /\ (forall id text sentiment sentiment' timestamp,
        scoreColorOf (AnalysisResult.mk id text sentiment score timestamp)
        = scoreColorOf (AnalysisResult.mk id text sentiment' score timestamp)).
Proof.
  pose proof (below_not_above score) as Hexcl.
  unfold getScoreColor, scoreColorOf. simpl.
  destruct (0.1 <? score)%float eqn:Habove;
    destruct (score <? -0.1)%float eqn:Hbelow;
    try (specialize (Hexcl eq_refl); discriminate);
    repeat split; intros; try reflexivity; try discriminate;
    try (destruct H; discriminate).
Qed.

(** C8: for a string [s] and a maximal length [n], [truncateText] returns
    [s] itself when [s] has at most [n] code units, and otherwise the first
    [n] code units of [s] followed by the ellipsis ["..."]; so with the
    default limit of 60 a string of 61 code units becomes its 60-unit prefix
    plus the ellipsis, and one of 60 comes back unchanged. *)
Theorem truncateText_spec (s : JS.str) (n : nat) :
  ((List.length s <= n)%nat -> truncateText s (Z.of_nat n) = s)
  /\ ((n < List.length s)%nat ->
      truncateText s (Z.of_nat n) = firstn n s ++ ellipsis
      /\ List.length (firstn n s) = n)
  /\ (List.length s = 61%nat ->
      truncateText s defaultMaxLength = firstn 60 s ++ ellipsis)
  /\ (List.length s = 60%nat -> truncateText s defaultMaxLength = s).
Proof.
  assert (Hlong : forall k, (k < List.length s)%nat ->
                            truncateText s (Z.of_nat k) = firstn k s ++ ellipsis).
  { intros k Hk. unfold truncateText, JS.length.
    destruct (Z.of_nat (List.length s) <=? Z.of_nat k) eqn:Hle; [lia|].
    rewrite slice_prefix by lia. reflexivity. }
  assert (Hshort : forall k, (List.length s <= k)%nat ->
                             truncateText s (Z.of_nat k) = s).
  { intros k Hk. unfold truncateText, JS.length.
    destruct (Z.of_nat (List.length s) <=? Z.of_nat k) eqn:Hle; [reflexivity|lia]. }
  repeat split.
  - apply Hshort.
  - apply Hlong; assumption.
  - apply firstn_length_le. lia.
  - intros H61. apply (Hlong 60%nat). lia.
  - intros H60. apply (Hshort 60%nat). lia.
Qed.

Lemma truncateText_spec_witness :
  let s := repeat 97%N 61 in
  (60 < List.length s)%nat
  /\ truncateText s defaultMaxLength = repeat 97%N 60 ++ JS.lit "...".
Proof.
  split; [simpl; lia|].
  apply (proj1 (proj2 (proj2 (truncateText_spec (repeat 97%N 61) 60)))).
  reflexivity.
Defined.

(** A negative limit is not a length: [slice] then counts from the end. *)
Example truncateText_negative_limit :
  truncateText (JS.lit "hello") (-2) = JS.lit "hel...".
Proof. reflexivity. Qed.

(** C3: when the history response is a 2xx array [data] (the empty one
    included), the refresh stores a sequence of the same length and order:
    its [i]-th record has the [i]-th item's id, its [input_text] as text,
    its sentiment, its [compound_score] as score and the parse of its
    [created_at] as timestamp; no error is set; and the empty array gives
    the empty history. *)
Theorem history_mirrors_response (w : World) (m : Machine)
    (data : list HistoryItem.t) :
  historyService w (historyRequest w) = succeeds data ->
  let m' := fst (fetchHistory w m) in
  List.length (history (ui m')) = List.length data
  /\ (forall i item,
        nth_error data i = Some item ->
        nth_error (history (ui m')) i
        = Some {| AnalysisResult.id := Some (HistoryItem.id item);
                  AnalysisResult.text := HistoryItem.input_text item;
                  AnalysisResult.sentiment := HistoryItem.sentiment item;
                  AnalysisResult.score := HistoryItem.compound_score item;
                  AnalysisResult.timestamp :=
                    Date_parse w (HistoryItem.created_at item) |})
  /\ (forall i, nth_error data i = None -> nth_error (history (ui m')) i = None)
  /\ errorMessage (ui m') = None
  /\ (data = [] -> history (ui m') = []).
Proof.
  intros H m'. subst m'. rewrite (fetchHistory_succeeds w m data H). simpl.
  repeat split.
  - apply length_map.
  - intros i item Hi. rewrite nth_error_map, Hi. reflexivity.
  - intros i Hi. rewrite nth_error_map, Hi. reflexivity.
  - intros ->. reflexivity.
Qed.

Lemma history_mirrors_response_witness :
  let w := Runtime.world (succeeds Runtime.lovely) (succeeds [Runtime.wellFormed]) in
  let m' := fst (fetchHistory w (boot initialState)) in
  historyService w (historyRequest w) = succeeds [Runtime.wellFormed]
  /\ List.length (history (ui m')) = 1%nat
  /\ errorMessage (ui m') = None.
Proof.
  pose proof (history_mirrors_response
                (Runtime.world (succeeds Runtime.lovely)
                   (succeeds [Runtime.wellFormed]))
                (boot initialState) [Runtime.wellFormed] eq_refl) as H.
  cbv zeta in H. destruct H as (Hlen & _ & _ & Herr & _).
  split; [reflexivity|]. split; [exact Hlen | exact Herr].
Defined.

Example history_of_sample :
  history (after (fetchHistory
                    (Runtime.world (succeeds Runtime.lovely)
                       (succeeds [Runtime.wellFormed]))) initialState)
  = [ {| AnalysisResult.id := Some [49%N];
         AnalysisResult.text := JS.lit "I love this product!";
         AnalysisResult.sentiment := Positive;
         AnalysisResult.score := 0.8;
         AnalysisResult.timestamp := JS.ValidDate 1714566600000 |} ].
Proof. vm_compute. reflexivity. Qed.

(** ** Timestamps that do not parse *)

(** C5, as the code has it: when an item of a 2xx history array has a
    [created_at] the runtime cannot parse, the refresh neither fails nor
    reports an error.  It completes normally, [errorMessage] is null, the
    busy flag is cleared, and the history is replaced by the normalized
    array, in which that item's record carries the Invalid Date. *)
Theorem malformed_timestamp_is_not_an_error (w : World) (m : Machine)
    (data : list HistoryItem.t) (item : HistoryItem.t) :
  historyService w (historyRequest w) = succeeds data ->
  In item data ->
  Date_parse w (HistoryItem.created_at item) = JS.InvalidDate ->
  let m' := fst (fetchHistory w m) in
  snd (fetchHistory w m) = Normal tt
  /\ errorMessage (ui m') = None
  /\ isLoadingHistory (ui m') = false
  /\ List.length (history (ui m')) = List.length data
  /\ In {| AnalysisResult.id := Some (HistoryItem.id item);
           AnalysisResult.text := HistoryItem.input_text item;
           AnalysisResult.sentiment := HistoryItem.sentiment item;
           AnalysisResult.score := HistoryItem.compound_score item;
           AnalysisResult.timestamp := JS.InvalidDate |}
        (history (ui m')).
Proof.
  intros H Hin Hbad m'. subst m'. rewrite (fetchHistory_succeeds w m data H). simpl.
  repeat split.
  - apply length_map.
  - rewrite <- Hbad. apply (in_map (mapItem w) data item Hin).
Qed.

Lemma malformed_timestamp_is_not_an_error_witness :
  let w := Runtime.world (succeeds Runtime.lovely)
             (succeeds [Runtime.wellFormed; Runtime.malformed]) in
  let m' := fst (fetchHistory w (boot initialState)) in
  Date_parse w (HistoryItem.created_at Runtime.malformed) = JS.InvalidDate
  /\ errorMessage (ui m') = None
  /\ List.length (history (ui m')) = 2%nat.
Proof.
  pose proof (malformed_timestamp_is_not_an_error
                (Runtime.world (succeeds Runtime.lovely)
                   (succeeds [Runtime.wellFormed; Runtime.malformed]))
                (boot initialState)
                [Runtime.wellFormed; Runtime.malformed] Runtime.malformed
                eq_refl (or_intror (or_introl eq_refl)) eq_refl) as H.
  cbv zeta in H. destruct H as (_ & Herr & _ & Hlen & _).
  split; [reflexivity|]. split; [exact Herr | exact Hlen].
Defined.

(** C5 as stated fails: a history array whose only item has the
    [created_at] ["not-a-date"] is stored, Invalid Date and all, and no
    error is reported. *)
Lemma malformed_timestamp_is_stored :
  let w := Runtime.world (succeeds Runtime.lovely) (succeeds [Runtime.malformed]) in
  let s' := after (fetchHistory w) initialState in
  Date_parse w (HistoryItem.created_at Runtime.malformed) = JS.InvalidDate
  /\ errorMessage s' = None
  /\ history initialState = []
  /\ history s'
     = [ {| AnalysisResult.id := Some [50%N];
            AnalysisResult.text := JS.lit "I love this product!";
            AnalysisResult.sentiment := Positive;
            AnalysisResult.score := 0.8;
            AnalysisResult.timestamp := JS.InvalidDate |} ].
Proof. repeat split; vm_compute; reflexivity. Qed.

(** ** The size of the history *)

Lemma handleAnalyze_history (w : World) (m : Machine) :
  history (ui (fst (handleAnalyze w m))) = history (ui m)
  \/ exists data, historyService w (historyRequest w) = succeeds data
                  /\ history (ui (fst (handleAnalyze w m))) = map (mapItem w) data.
Proof.
  destruct (JS.truthy (JS.trim (text (ui m)))) eqn:Hdraft.
  - destruct (analyzeService w (analyzeRequest w (text (ui m))))
      as [e | [[|] [e | data]]] eqn:H.
    + rewrite (handleAnalyze_network_error w m Hdraft e H). left. reflexivity.
    + rewrite (handleAnalyze_decode_error w m Hdraft e H). left. reflexivity.
    + rewrite (handleAnalyze_succeeds w m Hdraft data H).
      destruct (fetchHistory_history w (submitted w m data)) as [E | (d & Hd & E)].
      * left. exact E.
      * right. exists d. split; [exact Hd | exact E].
    + rewrite (handleAnalyze_status_not_ok w m Hdraft _ H). left. reflexivity.
    + rewrite (handleAnalyze_status_not_ok w m Hdraft _ H). left. reflexivity.
  - rewrite (handleAnalyze_blank w m Hdraft). left. reflexivity.
Qed.

(** A refresh sends one request, the one for [limit=10]. *)
Lemma fetchHistory_requests (w : World) (m : Machine) (ev : Event) :
  In ev (log (fst (fetchHistory w m))) ->
  In ev (log m)
  \/ pending ev = Fetching (historyRequest w)
  \/ pending ev = Decoding.
Proof.
  destruct (historyService w (historyRequest w)) as [e | [[|] [e | data]]] eqn:H.
  - rewrite (fetchHistory_network_error w m e H). simpl. rewrite in_app_iff. simpl.
    intros [Hin | [<- | []]]; auto.
  - rewrite (fetchHistory_decode_error w m e H). simpl. rewrite in_app_iff. simpl.
    intros [Hin | [<- | [<- | []]]]; auto.
  - rewrite (fetchHistory_succeeds w m data H). simpl. rewrite in_app_iff. simpl.
    intros [Hin | [<- | [<- | []]]]; auto.
  - rewrite (fetchHistory_status_not_ok w m _ H). simpl. rewrite in_app_iff. simpl.
    intros [Hin | [<- | []]]; auto.
  - rewrite (fetchHistory_status_not_ok w m _ H). simpl. rewrite in_app_iff. simpl.
    intros [Hin | [<- | []]]; auto.
Qed.

(** C6, as the code has it: the client asks for [limit=10] and stores the
    response array whole, so the history is exactly as long as the response;
    it has at most 10 entries in every state reached while the service
    answers the history request with at most 10 items.  The client itself
    cuts nothing. *)
Theorem history_capped_by_service :
  (forall s, Reachable honoursLimit s -> (List.length (history s) <= 10)%nat)
  /\ (forall w m data,
        historyService w (historyRequest w) = succeeds data ->
        List.length (history (ui (fst (fetchHistory w m)))) = List.length data)
  /\ (forall w, url (historyRequest w) = apiBaseUrl w ++ JS.lit "/history?limit=10")
  /\ (forall w m ev,
        In ev (log (fst (fetchHistory w m))) ->
        In ev (log m) \/ pending ev = Fetching (historyRequest w)
        \/ pending ev = Decoding).
Proof.
  split; [|split; [|split]].
  - intros s Hs. induction Hs as [| w s Hw Hs IH | v s Hs IH | w s Hw Hs IH].
    + simpl. lia.
    + unfold after.
      destruct (fetchHistory_history w (boot s)) as [E | (data & Hd & E)];
        rewrite E.
      * exact IH.
      * rewrite length_map. exact (Hw data Hd).
    + exact IH.
    + unfold after.
      destruct (handleAnalyze_history w (boot s)) as [E | (data & Hd & E)];
        rewrite E.
      * exact IH.
      * rewrite length_map. exact (Hw data Hd).
  - intros w m data H. rewrite (fetchHistory_succeeds w m data H). simpl.
    apply length_map.
  - reflexivity.
  - exact fetchHistory_requests.
Qed.

Lemma history_capped_by_service_witness :
  let w := Runtime.world (succeeds Runtime.lovely) (succeeds [Runtime.wellFormed]) in
  let s := after (handleAnalyze w) (after (setText (JS.lit "I love this product!"))
                                      (after (fetchHistory w) initialState)) in
  Reachable honoursLimit s /\ (List.length (history s) <= 10)%nat.
Proof.
  assert (Hw : honoursLimit (Runtime.world (succeeds Runtime.lovely)
                               (succeeds [Runtime.wellFormed]))).
  { intros data H. injection H as <-. simpl. lia. }
  assert (Hs : Reachable honoursLimit
                 (after (handleAnalyze (Runtime.world (succeeds Runtime.lovely)
                                          (succeeds [Runtime.wellFormed])))
                    (after (setText (JS.lit "I love this product!"))
                       (after (fetchHistory
                                 (Runtime.world (succeeds Runtime.lovely)
                                    (succeeds [Runtime.wellFormed])))
                          initialState)))).
  { apply reach_handleAnalyze; [exact Hw|].
    apply reach_setText. apply reach_fetchHistory; [exact Hw|].
    apply reach_initial. }
  split; [exact Hs|].
  exact (proj1 history_capped_by_service _ Hs).
Defined.

(** C6 as stated fails: a service that answers the [limit=10] request with
    eleven items leaves eleven entries in the history, in a reachable
    state. *)
Lemma history_exceeds_cap :
  let w := Runtime.world (succeeds Runtime.lovely) (succeeds Runtime.eleven) in
  let s := after (fetchHistory w) initialState in
  Reachable anyWorld s
  /\ List.length (history s) = 11%nat
  /\ (10 < List.length (history s))%nat.
Proof.
  split; [|split].
  - apply reach_fetchHistory; [exact I | apply reach_initial].
  - vm_compute. reflexivity.
  - vm_compute. lia.
Qed.

(** ** Submitting an analysis *)

(** C1: after a 2xx analyze response with body [data], [result] holds the
    record with [input_text] as text, the response's sentiment and
    [compound_score] unchanged, no id, and as timestamp the client's clock
    once both suspensions of the call are over (nothing the server sent).
    The history request is sent next, with that record already on display,
    and whatever becomes of the refresh, a failure included, the record
    stays. *)
Theorem analysis_result_is_recorded (w : World) (m : Machine)
    (data : AnalyzeData.t) :
  JS.truthy (JS.trim (text (ui m))) = true ->
  analyzeService w (analyzeRequest w (text (ui m))) = succeeds data ->
  let m' := fst (handleAnalyze w m) in
  let r := {| AnalysisResult.id := None;
              AnalysisResult.text := AnalyzeData.input_text data;
              AnalysisResult.sentiment := AnalyzeData.sentiment data;
              AnalysisResult.score := AnalyzeData.compound_score data;
              AnalysisResult.timestamp :=
                JS.ValidDate (clock w (2 + awaits m)) |} in
  result (ui m') = Some r
  /\ snd (handleAnalyze w m) = Normal tt
  /\ (exists shown rest,
        log m' = log m
                 ++ Await (analyzingView (ui m))
                      (Fetching (analyzeRequest w (text (ui m))))
                 :: Await (analyzingView (ui m)) Decoding
                 :: Await shown (Fetching (historyRequest w))
                 :: rest
        /\ result shown = Some r)
  /\ (Failing (historyService w (historyRequest w)) ->
      result (ui m') = Some r
      /\ exists msg, errorMessage (ui m') = Some msg).
Proof.
  intros Hdraft H m' r. subst m'.
  rewrite (handleAnalyze_succeeds w m Hdraft data H).
  destruct (fetchHistory_frame w (submitted w m data))
    as (final & rest & n & E & _ & Hresult & _).
  assert (Hr : result (ui (fst (setIsAnalyzing false
                                  (fst (fetchHistory w (submitted w m data))))))
               = Some r).
  { rewrite E. simpl. rewrite Hresult. reflexivity. }
  split; [exact Hr|]. split; [reflexivity|]. split.
  - exists (loadingView (ui (submitted w m data))), rest. split; [|reflexivity].
    rewrite E. simpl. rewrite <- app_assoc. reflexivity.
  - intros Hfail. split; [exact Hr|].
    inversion Hfail as [e He | j Hj | e He]; symmetry in He || symmetry in Hj.
    + rewrite (fetchHistory_network_error w _ e He). simpl. eauto.
    + rewrite (fetchHistory_status_not_ok w _ j Hj). simpl. eauto.
    + rewrite (fetchHistory_decode_error w _ e He). simpl. eauto.
Qed.

Lemma analysis_result_is_recorded_witness :
  let w := Runtime.world (succeeds Runtime.lovely) (FetchRejects JS.OtherValue) in
  let m := Runtime.typed (JS.lit "  I love this product! ") in
  JS.truthy (JS.trim (text (ui m))) = true
  /\ analyzeService w (analyzeRequest w (text (ui m))) = succeeds Runtime.lovely
  /\ result (ui (fst (handleAnalyze w m)))
     = Some {| AnalysisResult.id := None;
               AnalysisResult.text := JS.lit "I love this product!";
               AnalysisResult.sentiment := Positive;
               AnalysisResult.score := 0.8;
               AnalysisResult.timestamp := JS.ValidDate 1714566600500 |}.
Proof.
  split; [reflexivity|]. split; [reflexivity|].
  exact (proj1 (analysis_result_is_recorded
                  (Runtime.world (succeeds Runtime.lovely)
                     (FetchRejects JS.OtherValue))
                  (Runtime.typed (JS.lit "  I love this product! "))
                  Runtime.lovely eq_refl eq_refl)).
Defined.

(** ** What a failing call leaves in the error slot *)

Lemma fetchHistory_reports (w : World) (m : Machine) :
  Failing (historyService w (historyRequest w)) ->
  exists msg,
    errorMessage (ui (fst (fetchHistory w m))) = Some msg
    /\ Reported (JS.lit "Failed to load history") (JS.lit "Failed to load history")
         (historyService w (historyRequest w)) msg.
Proof.
  intros Hfail.
  inversion Hfail as [e He | j Hj | e He]; symmetry in He || symmetry in Hj.
  - rewrite (fetchHistory_network_error w m e He). simpl.
    eexists. split; [reflexivity|]. destruct e; constructor.
  - rewrite (fetchHistory_status_not_ok w m j Hj). simpl.
    eexists. split; [reflexivity|]. constructor.
  - rewrite (fetchHistory_decode_error w m e He). simpl.
    eexists. split; [reflexivity|]. destruct e; constructor.
Qed.

Lemma handleAnalyze_reports (w : World) (m : Machine) :
  JS.truthy (JS.trim (text (ui m))) = true ->
  Failing (analyzeService w (analyzeRequest w (text (ui m)))) ->
  exists msg,
    ui (fst (handleAnalyze w m)) = analysisFailed (ui m) msg
    /\ Reported (JS.lit "Analysis failed. Please try again.")
         (JS.lit "Analysis failed.")
         (analyzeService w (analyzeRequest w (text (ui m)))) msg.
Proof.
  intros Hdraft Hfail.
  inversion Hfail as [e He | j Hj | e He]; symmetry in He || symmetry in Hj.
  - rewrite (handleAnalyze_network_error w m Hdraft e He). simpl.
    eexists. split; [reflexivity|]. destruct e; constructor.
  - rewrite (handleAnalyze_status_not_ok w m Hdraft j Hj). simpl.
    eexists. split; [reflexivity|]. constructor.
  - rewrite (handleAnalyze_decode_error w m Hdraft e He). simpl.
    eexists. split; [reflexivity|]. destruct e; constructor.
Qed.

(** The message stored is empty only for an [Error] with an empty message. *)
Lemma Reported_nonempty {A} (notOk fallback : JS.str) (reply : FetchOutcome A)
    (msg : JS.str) :
  notOk <> [] -> fallback <> [] ->
  Reported notOk fallback reply msg ->
  rejection reply <> Some (JS.ErrorObject []) ->
  msg <> [].
Proof.
  intros HnotOk Hfallback Hrep Hrej.
  destruct Hrep; simpl in Hrej; try assumption; congruence.
Qed.

(** C2: when the analyze call fails (network error, non-2xx status,
    undecodable body), with the errors engines throw (whose message is
    never empty), [result], [history] and the draft are exactly what they
    were, [isAnalyzing] is false once the operation is over, and
    [errorMessage] holds a message that is not empty:
    ["Analysis failed. Please try again."] after a non-2xx status, the
    thrown [Error]'s own message after a network or decode error, and
    ["Analysis failed."] for any other thrown value. *)
Theorem failed_analysis_keeps_state (w : World) (m : Machine) :
  JS.truthy (JS.trim (text (ui m))) = true ->
  Failing (analyzeService w (analyzeRequest w (text (ui m)))) ->
  rejection (analyzeService w (analyzeRequest w (text (ui m))))
    <> Some (JS.ErrorObject []) ->
  let reply := analyzeService w (analyzeRequest w (text (ui m))) in
  let m' := fst (handleAnalyze w m) in
  result (ui m') = result (ui m)
  /\ history (ui m') = history (ui m)
  /\ text (ui m') = text (ui m)
  /\ isAnalyzing (ui m') = false
  /\ isLoadingHistory (ui m') = isLoadingHistory (ui m)
  /\ snd (handleAnalyze w m) = Normal tt
  /\ exists msg,
       errorMessage (ui m') = Some msg
       /\ msg <> []
       /\ errorBanner (ui m') = Some msg
       /\ Reported (JS.lit "Analysis failed. Please try again.")
            (JS.lit "Analysis failed.") reply msg.
Proof.
  intros Hdraft Hfail Hengine reply m'. subst reply m'.
  destruct (handleAnalyze_reports w m Hdraft Hfail) as (msg & E & Hrep).
  assert (Hmsg : msg <> []).
  { refine (Reported_nonempty (JS.lit "Analysis failed. Please try again.")
              (JS.lit "Analysis failed.") _ msg _ _ Hrep Hengine);
      discriminate. }
  assert (Hdone : snd (handleAnalyze w m) = Normal tt).
  { inversion Hfail as [e He | j Hj | e He]; symmetry in He || symmetry in Hj.
    - rewrite (handleAnalyze_network_error w m Hdraft e He). reflexivity.
    - rewrite (handleAnalyze_status_not_ok w m Hdraft j Hj). reflexivity.
    - rewrite (handleAnalyze_decode_error w m Hdraft e He). reflexivity. }
  rewrite E. simpl. repeat split; try exact Hdone.
  exists msg. split; [reflexivity|]. split; [exact Hmsg|]. split; [|exact Hrep].
  unfold errorBanner. simpl. destruct msg; [congruence | reflexivity].
Qed.

Lemma failed_analysis_keeps_state_witness :
  let w := Runtime.world (FetchResolves (mkResponse false (JsonRejects JS.OtherValue)))
             (succeeds [Runtime.wellFormed]) in
  let m := Runtime.typed (JS.lit "hello") in
  JS.truthy (JS.trim (text (ui m))) = true
  /\ Failing (analyzeService w (analyzeRequest w (text (ui m))))
  /\ rejection (analyzeService w (analyzeRequest w (text (ui m)))) = None
  /\ result (ui (fst (handleAnalyze w m))) = None
  /\ history (ui (fst (handleAnalyze w m))) = [].
Proof.
  pose proof (failed_analysis_keeps_state
                (Runtime.world
                   (FetchResolves (mkResponse false (JsonRejects JS.OtherValue)))
                   (succeeds [Runtime.wellFormed]))
                (Runtime.typed (JS.lit "hello")) eq_refl (status_not_ok _)
                ltac:(discriminate)) as H.
  cbv zeta in H. destruct H as (Hr & Hh & _).
  split; [reflexivity|]. split; [apply status_not_ok|]. split; [reflexivity|].
  split; [exact Hr | exact Hh].
Defined.

Example failed_analysis_messages :
  let run analyze :=
    errorMessage (ui (fst (handleAnalyze (Runtime.world analyze (succeeds []))
                             (Runtime.typed (JS.lit "hello"))))) in
  run (FetchResolves (mkResponse false (JsonResolves Runtime.lovely)))
    = Some (JS.lit "Analysis failed. Please try again.")
  /\ run (FetchRejects (JS.ErrorObject (JS.lit "Failed to fetch")))
     = Some (JS.lit "Failed to fetch")
  /\ run (FetchResolves (mkResponse true (JsonRejects JS.OtherValue)))
     = Some (JS.lit "Analysis failed.").
Proof. repeat split; vm_compute; reflexivity. Qed.

(** ** Failures and busy flags *)

Lemma fetchHistory_failure_reported (w : World) (m : Machine) :
  Failing (historyService w (historyRequest w)) ->
  exists msg, errorMessage (ui (fst (fetchHistory w m))) = Some msg.
Proof.
  intros Hfail. destruct (fetchHistory_reports w m Hfail) as (msg & E & _).
  exists msg. exact E.
Qed.

Lemma fetchHistory_flag_cleared (w : World) (m : Machine) :
  isLoadingHistory (ui (fst (fetchHistory w m))) = false.
Proof.
  destruct (fetchHistory_frame w m) as (final & rest & n & E & _ & _ & _ & Hflag & _).
  rewrite E. exact Hflag.
Qed.

(** C9: whatever the service does, neither operation completes abruptly,
    so nothing is thrown to the caller, and every failure ends in the
    [errorMessage] slot.  A refresh always ends with [isLoadingHistory]
    false, and a failed one with its message stored: ["Failed to load
    history"] after a non-2xx status, the thrown [Error]'s message, or
    ["Failed to load history"] for another thrown value.  An analysis that
    went past its guard always ends with [isAnalyzing] false; a failed one
    with its message stored (["Analysis failed. Please try again."], the
    [Error]'s message, or ["Analysis failed."]); a successful one with the
    outcome of its refresh: [isLoadingHistory] false, and the refresh's
    message stored when that refresh failed. *)
Theorem failures_stay_inside (w : World) (m : Machine) :
  (snd (fetchHistory w m) = Normal tt
   /\ isLoadingHistory (ui (fst (fetchHistory w m))) = false
   /\ (Failing (historyService w (historyRequest w)) ->
       exists msg,
         errorMessage (ui (fst (fetchHistory w m))) = Some msg
         /\ Reported (JS.lit "Failed to load history")
              (JS.lit "Failed to load history")
              (historyService w (historyRequest w)) msg))
  /\ (snd (handleAnalyze w m) = Normal tt
      /\ (JS.truthy (JS.trim (text (ui m))) = true ->
          isAnalyzing (ui (fst (handleAnalyze w m))) = false
          /\ (Failing (analyzeService w (analyzeRequest w (text (ui m)))) ->
              exists msg,
                errorMessage (ui (fst (handleAnalyze w m))) = Some msg
                /\ Reported (JS.lit "Analysis failed. Please try again.")
                     (JS.lit "Analysis failed.")
                     (analyzeService w (analyzeRequest w (text (ui m)))) msg)
          /\ (forall data,
                analyzeService w (analyzeRequest w (text (ui m))) = succeeds data ->
                isLoadingHistory (ui (fst (handleAnalyze w m))) = false
                /\ (Failing (historyService w (historyRequest w)) ->
                    exists msg,
                      errorMessage (ui (fst (handleAnalyze w m))) = Some msg
                      /\ Reported (JS.lit "Failed to load history")
                           (JS.lit "Failed to load history")
                           (historyService w (historyRequest w)) msg)))).
Proof.
  split; [split; [|split]|].
  - apply fetchHistory_completes.
  - apply fetchHistory_flag_cleared.
  - apply fetchHistory_reports.
  - destruct (JS.truthy (JS.trim (text (ui m)))) eqn:Hdraft.
    + assert (Hfailed : Failing (analyzeService w (analyzeRequest w (text (ui m)))) ->
                        exists msg,
                          errorMessage (ui (fst (handleAnalyze w m))) = Some msg
                          /\ Reported (JS.lit "Analysis failed. Please try again.")
                               (JS.lit "Analysis failed.")
                               (analyzeService w (analyzeRequest w (text (ui m)))) msg).
      { intros Hfail.
        destruct (handleAnalyze_reports w m Hdraft Hfail) as (msg & E & Hrep).
        exists msg. split; [rewrite E; reflexivity | exact Hrep]. }
      destruct (analyzeService w (analyzeRequest w (text (ui m))))
        as [e | [[|] [e | data]]] eqn:H.
      * rewrite (handleAnalyze_network_error w m Hdraft e H) in Hfailed |- *.
        simpl. repeat split; try exact Hfailed; discriminate.
      * rewrite (handleAnalyze_decode_error w m Hdraft e H) in Hfailed |- *.
        simpl. repeat split; try exact Hfailed; discriminate.
      * rewrite (handleAnalyze_succeeds w m Hdraft data H).
        repeat split.
        -- intros Hfail. inversion Hfail.
        -- apply (fetchHistory_flag_cleared w (submitted w m data)).
        -- apply (fetchHistory_reports w (submitted w m data)).
      * rewrite (handleAnalyze_status_not_ok w m Hdraft _ H) in Hfailed |- *.
        simpl. repeat split; try exact Hfailed; discriminate.
      * rewrite (handleAnalyze_status_not_ok w m Hdraft _ H) in Hfailed |- *.
        simpl. repeat split; try exact Hfailed; discriminate.
    + rewrite (handleAnalyze_blank w m Hdraft). simpl.
      split; [reflexivity | discriminate].
Qed.

Lemma failures_stay_inside_witness :
  let w := Runtime.world (succeeds Runtime.lovely)
             (FetchResolves (mkResponse true (JsonRejects (JS.ErrorObject (JS.lit "Unexpected token"))))) in
  let m := Runtime.typed (JS.lit "hello") in
  snd (handleAnalyze w m) = Normal tt
  /\ isAnalyzing (ui (fst (handleAnalyze w m))) = false
  /\ isLoadingHistory (ui (fst (handleAnalyze w m))) = false
  /\ exists msg, errorMessage (ui (fst (handleAnalyze w m))) = Some msg.
Proof.
  pose proof (failures_stay_inside
                (Runtime.world (succeeds Runtime.lovely)
                   (FetchResolves
                      (mkResponse true
                         (JsonRejects (JS.ErrorObject (JS.lit "Unexpected token"))))))
                (Runtime.typed (JS.lit "hello"))) as H.
  destruct H as (_ & Hdone & Hrest).
  destruct (Hrest eq_refl) as (Hflag & _ & Hok).
  destruct (Hok Runtime.lovely eq_refl) as (Hload & Herr).
  split; [exact Hdone|]. split; [exact Hflag|]. split; [exact Hload|].
  destruct (Herr (decode_error _)) as (msg & E & _). exists msg. exact E.
Defined.

(** C10: a refresh clears [errorMessage] before it sends its request: at
    every suspension of the refresh, the first one (the request) included,
    [isLoadingHistory] is true and [errorMessage] is null, whatever message
    was there before; a failed refresh stores its own message at its end
    (["Failed to load history"] after a non-2xx status, the thrown
    [Error]'s message, or ["Failed to load history"] for another thrown
    value), with [isLoadingHistory] back to false.  The same holds for the
    refresh that a successful analysis starts. *)
Theorem refresh_clears_error_first (w : World) (m : Machine) :
  (exists rest,
     log (fst (fetchHistory w m))
       = log m ++ Await (loadingView (ui m)) (Fetching (historyRequest w)) :: rest
     /\ Forall refreshing
          (Await (loadingView (ui m)) (Fetching (historyRequest w)) :: rest))
  /\ (Failing (historyService w (historyRequest w)) ->
      isLoadingHistory (ui (fst (fetchHistory w m))) = false
      /\ exists msg,
           errorMessage (ui (fst (fetchHistory w m))) = Some msg
           /\ Reported (JS.lit "Failed to load history")
                (JS.lit "Failed to load history")
                (historyService w (historyRequest w)) msg)
  /\ (forall data,
        JS.truthy (JS.trim (text (ui m))) = true ->
        analyzeService w (analyzeRequest w (text (ui m))) = succeeds data ->
        (exists shown rest,
           log (fst (handleAnalyze w m))
             = log (submitted w m data)
               ++ Await shown (Fetching (historyRequest w)) :: rest
           /\ Forall refreshing (Await shown (Fetching (historyRequest w)) :: rest))
        /\ (Failing (historyService w (historyRequest w)) ->
            isLoadingHistory (ui (fst (handleAnalyze w m))) = false
            /\ exists msg,
                 errorMessage (ui (fst (handleAnalyze w m))) = Some msg
                 /\ Reported (JS.lit "Failed to load history")
                      (JS.lit "Failed to load history")
                      (historyService w (historyRequest w)) msg)).
Proof.
  assert (Hframe : forall m0, exists rest,
             log (fst (fetchHistory w m0))
               = log m0 ++ Await (loadingView (ui m0)) (Fetching (historyRequest w))
                           :: rest
             /\ Forall refreshing
                  (Await (loadingView (ui m0)) (Fetching (historyRequest w)) :: rest)).
  { intros m0.
    destruct (fetchHistory_frame w m0) as (final & rest & n & E & _ & _ & _ & _ & Hall).
    exists rest. split; [rewrite E; reflexivity|].
    constructor; [split; reflexivity|].
    apply Forall_impl with (2 := Hall).
    intros ev Hev. unfold refreshing. rewrite Hev. split; reflexivity. }
  split; [apply Hframe|]. split.
  - intros Hfail. split; [apply fetchHistory_flag_cleared|].
    apply fetchHistory_reports. exact Hfail.
  - intros data Hdraft H. rewrite (handleAnalyze_succeeds w m Hdraft data H). split.
    + destruct (Hframe (submitted w m data)) as (rest & Hlog & Hall).
      exists (loadingView (ui (submitted w m data))), rest.
      split; [exact Hlog | exact Hall].
    + intros Hfail. split.
      * apply (fetchHistory_flag_cleared w (submitted w m data)).
      * apply (fetchHistory_reports w (submitted w m data)). exact Hfail.
Qed.

Lemma refresh_clears_error_first_witness :
  let w := Runtime.world (succeeds Runtime.lovely)
             (FetchResolves (mkResponse false (JsonResolves []))) in
  let stale := {| text := []; result := None; history := [];
                  isAnalyzing := false; isLoadingHistory := false;
                  errorMessage := Some (JS.lit "Analysis failed.") |} in
  Failing (historyService w (historyRequest w))
  /\ exists msg, errorMessage (ui (fst (fetchHistory w (boot stale)))) = Some msg.
Proof.
  split; [apply status_not_ok|].
  destruct (proj1 (proj2 (refresh_clears_error_first
                            (Runtime.world (succeeds Runtime.lovely)
                               (FetchResolves (mkResponse false (JsonResolves []))))
                            (boot {| text := []; result := None; history := [];
                                     isAnalyzing := false; isLoadingHistory := false;
                                     errorMessage := Some (JS.lit "Analysis failed.") |})))
             (status_not_ok _)) as (_ & msg & E & _).
  exists msg. exact E.
Defined.

Example stale_error_hidden_while_loading :
  let w := Runtime.world (succeeds Runtime.lovely)
             (FetchResolves (mkResponse false (JsonResolves []))) in
  let stale := {| text := []; result := None; history := [];
                  isAnalyzing := false; isLoadingHistory := false;
                  errorMessage := Some (JS.lit "Analysis failed.") |} in
  map (fun ev => errorMessage (visible ev)) (log (fst (fetchHistory w (boot stale))))
    = [None]
  /\ errorMessage (after (fetchHistory w) stale)
     = Some (JS.lit "Failed to load history").
Proof. split; vm_compute; reflexivity. Qed.

(** * Further properties of the component *)

(** ** Trimming and the word counter *)

Lemma trimStart_decompose (s : JS.str) :
  exists pre, s = pre ++ JS.trimStart s /\ forallb JS.isWhiteSpace pre = true.
Proof.
  induction s as [|c s (pre & E & Hpre)]; simpl.
  - exists []. split; reflexivity.
  - destruct (JS.isWhiteSpace c) eqn:Hc.
    + exists (c :: pre). simpl. rewrite Hc, Hpre. split; [f_equal; exact E | reflexivity].
    + exists []. split; reflexivity.
Qed.

Lemma trimStart_head (s : JS.str) (c : N) (r : JS.str) :
  JS.trimStart s = c :: r -> JS.isWhiteSpace c = false.
Proof.
  induction s as [|d s IH]; simpl; [discriminate|].
  destruct (JS.isWhiteSpace d) eqn:Hd.
  - exact IH.
  - intros E. injection E as <- _. exact Hd.
Qed.

(** What [trim] removes is white space at both ends. *)
Lemma trim_decompose (s : JS.str) :
  exists pre post,
    s = pre ++ JS.trim s ++ post
    /\ forallb JS.isWhiteSpace pre = true
    /\ forallb JS.isWhiteSpace post = true.
Proof.
  destruct (trimStart_decompose s) as (pre & E & Hpre).
  destruct (trimStart_decompose (rev (JS.trimStart s))) as (tail & E' & Htail).
  exists pre, (rev tail). unfold JS.trim, JS.trimEnd. repeat split.
  - rewrite <- rev_app_distr, <- E', rev_involutive. exact E.
  - exact Hpre.
  - rewrite forallb_rev. exact Htail.
Qed.

Lemma trim_head (s : JS.str) (c : N) (r : JS.str) :
  JS.trim s = c :: r -> JS.isWhiteSpace c = false.
Proof.
  intros E.
  destruct (trimStart_decompose (rev (JS.trimStart s))) as (tail & E' & _).
  apply (f_equal (@rev N)) in E'. rewrite rev_involutive, rev_app_distr in E'.
  unfold JS.trim, JS.trimEnd in E. rewrite E in E'. simpl in E'.
  exact (trimStart_head s c _ E').
Qed.

Lemma trim_last (s : JS.str) (r : JS.str) (c : N) :
  JS.trim s = r ++ [c] -> JS.isWhiteSpace c = false.
Proof.
  unfold JS.trim, JS.trimEnd. intros E.
  apply (f_equal (@rev N)) in E. rewrite rev_involutive, rev_app_distr in E.
  simpl in E. exact (trimStart_head _ c _ E).
Qed.

Lemma filter_blank (s : JS.str) :
  forallb JS.isWhiteSpace s = true -> filter notWhiteSpace s = [].
Proof.
  induction s as [|c s IH]; simpl; [reflexivity|].
  unfold notWhiteSpace at 1. destruct (JS.isWhiteSpace c); simpl; [exact IH | discriminate].
Qed.

Lemma splitRuns_concat (s : JS.str) :
  forall inRun piece,
    (inRun = true -> piece = []) ->
    List.concat (JS.splitRuns inRun piece s) = rev piece ++ filter notWhiteSpace s.
Proof.
  induction s as [|c s IH]; intros inRun piece Hrun; simpl.
  - rewrite !app_nil_r. reflexivity.
  - unfold notWhiteSpace at 1. destruct (JS.isWhiteSpace c); simpl.
    + destruct inRun.
      * rewrite (Hrun eq_refl). rewrite IH by reflexivity. reflexivity.
      * simpl. rewrite IH by reflexivity. reflexivity.
    + rewrite IH by discriminate. simpl. rewrite <- app_assoc. reflexivity.
Qed.

Lemma splitRuns_pieces (s : JS.str) :
  forall inRun piece,
    forallb notWhiteSpace piece = true ->
    Forall (fun p => forallb notWhiteSpace p = true) (JS.splitRuns inRun piece s).
Proof.
  induction s as [|c s IH]; intros inRun piece Hpiece; simpl.
  - constructor; [|constructor]. rewrite forallb_rev. exact Hpiece.
  - destruct (JS.isWhiteSpace c) eqn:Hc.
    + destruct inRun.
      * apply IH. reflexivity.
      * constructor; [rewrite forallb_rev; exact Hpiece | apply IH; reflexivity].
    + apply IH. simpl. unfold notWhiteSpace at 1. rewrite Hc. exact Hpiece.
Qed.

Lemma concat_filter_truthy (l : list JS.str) :
  List.concat (filter JS.truthy l) = List.concat l.
Proof.
  induction l as [|p l IH]; simpl; [reflexivity|].
  destruct p; simpl; [exact IH | rewrite IH; reflexivity].
Qed.

Lemma length_concat_nonempty (l : list JS.str) :
  Forall (fun p => p <> []) l -> (List.length l <= List.length (List.concat l))%nat.
Proof.
  induction 1 as [|p l Hp _ IH]; simpl; [lia|].
  rewrite length_app. destruct p; [congruence | simpl; lia].
Qed.

Lemma words_concat (text : JS.str) :
  List.concat (words text) = filter notWhiteSpace text.
Proof.
  unfold words, JS.splitWhiteSpace.
  rewrite concat_filter_truthy, splitRuns_concat by discriminate. simpl.
  destruct (trim_decompose text) as (pre & post & E & Hpre & Hpost).
  rewrite E at 2. rewrite !filter_app, (filter_blank pre Hpre), (filter_blank post Hpost).
  rewrite app_nil_r. reflexivity.
Qed.

Lemma words_shape (text : JS.str) :
  Forall (fun word => word <> [] /\ forallb notWhiteSpace word = true) (words text).
Proof.
  unfold words, JS.splitWhiteSpace. apply Forall_forall. intros word Hin.
  apply filter_In in Hin. destruct Hin as (Hin & Htruthy). split.
  - destruct word; [discriminate | congruence].
  - pose proof (splitRuns_pieces (JS.trim text) false [] eq_refl) as Hall.
    rewrite Forall_forall in Hall. exact (Hall word Hin).
Qed.

(** X1: the word counter.  The words counted under the text area are
    non-empty and free of white space; put end to end they are the draft
    with its white space removed; so there are at most as many words as
    code units, and there is no word exactly when the draft is blank, which
    is when [handleAnalyze] would return at once. *)
Theorem words_of_draft (text : JS.str) :
  Forall (fun word => word <> [] /\ forallb notWhiteSpace word = true) (words text)
  /\ List.concat (words text) = filter notWhiteSpace text
  /\ (List.length (words text) <= List.length text)%nat
  /\ (words text = [] <-> forallb JS.isWhiteSpace text = true)
  /\ (words text = [] <-> JS.truthy (JS.trim text) = false).
Proof.
  assert (Hblank : words text = [] <-> forallb JS.isWhiteSpace text = true).
  { split.
    - intros E. pose proof (words_concat text) as Hc. rewrite E in Hc. simpl in Hc.
      clear E. induction text as [|c s IH]; simpl in *; [reflexivity|].
      unfold notWhiteSpace at 1 in Hc. destruct (JS.isWhiteSpace c); simpl in *.
      + apply IH. exact Hc.
      + discriminate.
    - intros Hb. pose proof (words_concat text) as Hc.
      rewrite (filter_blank text Hb) in Hc.
      pose proof (words_shape text) as Hs.
      destruct (words text) as [|word l]; [reflexivity|].
      inversion Hs as [|? ? (Hne & _) _]. subst.
      simpl in Hc. destruct word; [congruence | discriminate]. }
  split; [apply words_shape|]. split; [apply words_concat|]. split; [|split].
  - transitivity (List.length (List.concat (words text))).
    + apply length_concat_nonempty.
      apply Forall_impl with (2 := words_shape text). intros word (H & _). exact H.
    + rewrite words_concat. apply filter_length_le.
  - exact Hblank.
  - rewrite Hblank. symmetry. apply truthy_trim_false.
Qed.

Example words_sample :
  words (JS.lit "  I love   this product! ")
  = [JS.lit "I"; JS.lit "love"; JS.lit "this"; JS.lit "product!"]
  /\ words (JS.lit "   ") = []
  /\ JS.splitWhiteSpace (JS.lit " a  b ") = [[]; JS.lit "a"; JS.lit "b"; []].
Proof. repeat split; vm_compute; reflexivity. Qed.

(** ** What an analysis sends and shows *)

Lemma skipn_prefix {A} (l r : list A) : skipn (List.length l) (l ++ r) = r.
Proof. induction l as [|a l IH]; simpl; [reflexivity | exact IH]. Qed.

Lemma fetchHistory_newEvents (w : World) (m : Machine) :
  exists rest,
    newEvents (fetchHistory w) m
      = Await (loadingView (ui m)) (Fetching (historyRequest w)) :: rest
    /\ Forall (fun ev => visible ev = loadingView (ui m) /\ pending ev = Decoding) rest.
Proof.
  unfold newEvents.
  destruct (historyService w (historyRequest w)) as [e | [[|] [e | data]]] eqn:H.
  - rewrite (fetchHistory_network_error w m e H). simpl. rewrite skipn_prefix.
    exists []. split; [reflexivity | constructor].
  - rewrite (fetchHistory_decode_error w m e H). simpl. rewrite skipn_prefix.
    eexists [_]. split; [reflexivity | repeat constructor].
  - rewrite (fetchHistory_succeeds w m data H). simpl. rewrite skipn_prefix.
    eexists [_]. split; [reflexivity | repeat constructor].
  - rewrite (fetchHistory_status_not_ok w m _ H). simpl. rewrite skipn_prefix.
    exists []. split; [reflexivity | constructor].
  - rewrite (fetchHistory_status_not_ok w m _ H). simpl. rewrite skipn_prefix.
    exists []. split; [reflexivity | constructor].
Qed.

Lemma fetchHistory_log (w : World) (m : Machine) :
  log (fst (fetchHistory w m)) = log m ++ newEvents (fetchHistory w) m.
Proof.
  unfold newEvents.
  destruct (fetchHistory_frame w m) as (final & rest & n & E & _).
  rewrite E. simpl. rewrite skipn_prefix. reflexivity.
Qed.

Lemma requests_decodings (evs : list Event) :
  Forall (fun ev => pending ev = Decoding) evs -> requests evs = [].
Proof.
  induction 1 as [|ev evs Hev _ IH]; simpl; [reflexivity|].
  rewrite Hev. exact IH.
Qed.

(** X2: what an analysis sends.  With a blank draft nothing is sent.
    Otherwise the first request is the POST to [/analyze], whose body is the
    trimmed draft: the draft without the white space at its two ends, not
    empty, with no white space first or last.  A failed analysis sends
    nothing else (no history is requested); a successful one sends the
    [GET /history?limit=10] next, and nothing more. *)
Theorem analysis_requests (w : World) (m : Machine) :
  let draft := text (ui m) in
  let sent := requests (newEvents (handleAnalyze w) m) in
  (JS.truthy (JS.trim draft) = false -> sent = [])
  /\ (JS.truthy (JS.trim draft) = true ->
      (Failing (analyzeService w (analyzeRequest w draft)) ->
       sent = [analyzeRequest w draft])
      /\ (forall data, analyzeService w (analyzeRequest w draft) = succeeds data ->
                       sent = [analyzeRequest w draft; historyRequest w])
      /\ method (analyzeRequest w draft) = POST
      /\ url (analyzeRequest w draft) = apiBaseUrl w ++ JS.lit "/analyze"
      /\ exists trimmed pre post first middle last,
           body (analyzeRequest w draft) = Some (JSON_text trimmed)
           /\ draft = pre ++ trimmed ++ post
           /\ forallb JS.isWhiteSpace pre = true
           /\ forallb JS.isWhiteSpace post = true
           /\ trimmed = first :: middle
           /\ JS.isWhiteSpace first = false
           /\ (exists init, trimmed = init ++ [last])
           /\ JS.isWhiteSpace last = false).
Proof.
  intros draft sent. subst draft sent. unfold newEvents. split.
  - intros Hblank. rewrite (handleAnalyze_blank w m Hblank). simpl.
    rewrite <- (app_nil_r (log m)) at 2. rewrite skipn_prefix. reflexivity.
  - intros Hdraft. split; [|split; [|split; [|split]]].
    + intros Hfail.
      inversion Hfail as [e He | j Hj | e He]; symmetry in He || symmetry in Hj.
      * rewrite (handleAnalyze_network_error w m Hdraft e He). simpl.
        rewrite skipn_prefix. reflexivity.
      * rewrite (handleAnalyze_status_not_ok w m Hdraft j Hj). simpl.
        rewrite skipn_prefix. reflexivity.
      * rewrite (handleAnalyze_decode_error w m Hdraft e He). simpl.
        rewrite skipn_prefix. reflexivity.
    + intros data H. rewrite (handleAnalyze_succeeds w m Hdraft data H).
      change (log (fst (setIsAnalyzing false
                          (fst (fetchHistory w (submitted w m data))))))
        with (log (fst (fetchHistory w (submitted w m data)))).
      rewrite fetchHistory_log.
      destruct (fetchHistory_newEvents w (submitted w m data)) as (rest & E & Hrest).
      rewrite E. simpl. rewrite <- app_assoc, skipn_prefix. simpl.
      rewrite requests_decodings; [reflexivity|].
      apply Forall_impl with (2 := Hrest). intros ev (_ & Hev). exact Hev.
    + reflexivity.
    + reflexivity.
    + destruct (trim_decompose (text (ui m))) as (pre & post & E & Hpre & Hpost).
      destruct (JS.trim (text (ui m))) as [|first middle] eqn:Htrim; [discriminate|].
      destruct (exists_last (l := first :: middle)) as (init & last & Hlast);
        [discriminate|].
      exists (first :: middle), pre, post, first, middle, last.
      simpl. rewrite Htrim. repeat split; try assumption.
      * exact (trim_head _ _ _ Htrim).
      * exists init. exact Hlast.
      * rewrite Hlast in Htrim. exact (trim_last _ _ _ Htrim).
Qed.

Lemma analysis_requests_witness :
  let w := Runtime.world (succeeds Runtime.lovely) (succeeds [Runtime.wellFormed]) in
  let m := Runtime.typed (JS.lit "  I love this product! ") in
  JS.truthy (JS.trim (text (ui m))) = true
  /\ requests (newEvents (handleAnalyze w) m)
     = [analyzeRequest w (text (ui m)); historyRequest w].
Proof.
  split; [reflexivity|].
  exact (proj1 (proj2 (proj2 (analysis_requests
                                (Runtime.world (succeeds Runtime.lovely)
                                   (succeeds [Runtime.wellFormed]))
                                (Runtime.typed (JS.lit "  I love this product! ")))
                               eq_refl))
           Runtime.lovely eq_refl).
Defined.

Example analyze_body_sample :
  body (analyzeRequest (Runtime.world (succeeds Runtime.lovely) (succeeds []))
          (JS.lit "  I love this product! "))
  = Some (JSON_text (JS.lit "I love this product!")).
Proof. vm_compute. reflexivity. Qed.

(** X3: the Analyze button while an analysis runs.  From a draft that is
    not blank, the button is disabled at every suspension of
    [handleAnalyze] (the analysis is the only one in flight as far as the
    button allows), there is at least one such suspension, and the button
    is enabled again when the operation is over, whatever the outcome. *)
Theorem button_disabled_while_analyzing (w : World) (m : Machine) :
  JS.truthy (JS.trim (text (ui m))) = true ->
  newEvents (handleAnalyze w) m <> []
  /\ Forall (fun ev => analyzeDisabled (visible ev) = true /\ isAnalyzing (visible ev) = true)
       (newEvents (handleAnalyze w) m)
  /\ analyzeDisabled (ui (fst (handleAnalyze w m))) = false.
Proof.
  intros Hdraft. unfold newEvents.
  assert (Hview : analyzeDisabled (analyzingView (ui m)) = true
                  /\ isAnalyzing (analyzingView (ui m)) = true).
  { unfold analyzeDisabled. simpl. rewrite orb_true_r. split; reflexivity. }
  assert (Hend : forall msg, analyzeDisabled (analysisFailed (ui m) msg) = false).
  { intros msg. unfold analyzeDisabled. simpl. rewrite Hdraft. reflexivity. }
  destruct (analyzeService w (analyzeRequest w (text (ui m))))
    as [e | [[|] [e | data]]] eqn:H.
  - rewrite (handleAnalyze_network_error w m Hdraft e H). simpl.
    rewrite skipn_prefix. split; [discriminate|]. split; [|apply Hend].
    repeat constructor; apply Hview.
  - rewrite (handleAnalyze_decode_error w m Hdraft e H). simpl.
    rewrite skipn_prefix. split; [discriminate|]. split; [|apply Hend].
    repeat constructor; apply Hview.
  - rewrite (handleAnalyze_succeeds w m Hdraft data H).
    change (log (fst (setIsAnalyzing false
                        (fst (fetchHistory w (submitted w m data))))))
      with (log (fst (fetchHistory w (submitted w m data)))).
    rewrite fetchHistory_log.
    destruct (fetchHistory_newEvents w (submitted w m data)) as (rest & E & Hrest).
    destruct (fetchHistory_frame w (submitted w m data))
      as (final & rest' & n & E' & Htext & _).
    rewrite E, E'. simpl. rewrite <- app_assoc, skipn_prefix. simpl.
    split; [discriminate|]. split.
    + constructor; [apply Hview|]. constructor; [apply Hview|].
      constructor.
      * unfold analyzeDisabled. simpl. rewrite orb_true_r. split; reflexivity.
      * apply Forall_impl with (2 := Hrest). intros ev (Hev & _). rewrite Hev.
        unfold analyzeDisabled. simpl. rewrite orb_true_r. split; reflexivity.
    + unfold analyzeDisabled. simpl. rewrite Htext. simpl. rewrite Hdraft. reflexivity.
  - rewrite (handleAnalyze_status_not_ok w m Hdraft _ H). simpl.
    rewrite skipn_prefix. split; [discriminate|]. split; [|apply Hend].
    repeat constructor; apply Hview.
  - rewrite (handleAnalyze_status_not_ok w m Hdraft _ H). simpl.
    rewrite skipn_prefix. split; [discriminate|]. split; [|apply Hend].
    repeat constructor; apply Hview.
Qed.

Lemma button_disabled_while_analyzing_witness :
  let w := Runtime.world (succeeds Runtime.lovely) (succeeds [Runtime.wellFormed]) in
  let m := Runtime.typed (JS.lit "hello") in
  JS.truthy (JS.trim (text (ui m))) = true
  /\ analyzeDisabled (ui (fst (handleAnalyze w m))) = false.
Proof.
  split; [reflexivity|].
  exact (proj2 (proj2 (button_disabled_while_analyzing
                         (Runtime.world (succeeds Runtime.lovely)
                            (succeeds [Runtime.wellFormed]))
                         (Runtime.typed (JS.lit "hello")) eq_refl))).
Defined.

(** ** What the operations leave alone *)

Lemma handleAnalyze_result (w : World) (m : Machine) :
  result (ui (fst (handleAnalyze w m))) = result (ui m)
  \/ exists data now,
       result (ui (fst (handleAnalyze w m))) = Some (newResult data now).
Proof.
  destruct (JS.truthy (JS.trim (text (ui m)))) eqn:Hdraft.
  - destruct (analyzeService w (analyzeRequest w (text (ui m))))
      as [e | [[|] [e | data]]] eqn:H.
    + rewrite (handleAnalyze_network_error w m Hdraft e H). left. reflexivity.
    + rewrite (handleAnalyze_decode_error w m Hdraft e H). left. reflexivity.
    + rewrite (handleAnalyze_succeeds w m Hdraft data H).
      destruct (fetchHistory_frame w (submitted w m data))
        as (final & rest & n & E & _ & Hresult & _).
      right. eexists data, _. rewrite E. simpl. rewrite Hresult. reflexivity.
    + rewrite (handleAnalyze_status_not_ok w m Hdraft _ H). left. reflexivity.
    + rewrite (handleAnalyze_status_not_ok w m Hdraft _ H). left. reflexivity.
  - rewrite (handleAnalyze_blank w m Hdraft). left. reflexivity.
Qed.

Lemma handleAnalyze_flags (w : World) (m : Machine) :
  JS.truthy (JS.trim (text (ui m))) = true ->
  isAnalyzing (ui (fst (handleAnalyze w m))) = false
  /\ (isLoadingHistory (ui (fst (handleAnalyze w m))) = isLoadingHistory (ui m)
      \/ isLoadingHistory (ui (fst (handleAnalyze w m))) = false).
Proof.
  intros Hdraft.
  destruct (analyzeService w (analyzeRequest w (text (ui m))))
    as [e | [[|] [e | data]]] eqn:H.
  - rewrite (handleAnalyze_network_error w m Hdraft e H). simpl. auto.
  - rewrite (handleAnalyze_decode_error w m Hdraft e H). simpl. auto.
  - rewrite (handleAnalyze_succeeds w m Hdraft data H). split; [reflexivity|].
    right. apply (fetchHistory_flag_cleared w (submitted w m data)).
  - rewrite (handleAnalyze_status_not_ok w m Hdraft _ H). simpl. auto.
  - rewrite (handleAnalyze_status_not_ok w m Hdraft _ H). simpl. auto.
Qed.

(** X4: the draft is never cleared or rewritten by an operation: after
    [handleAnalyze], successful or not, and after [fetchHistory], the text
    area holds what it held; and a refresh leaves the current result and
    the analyzing flag as they were. *)
Theorem draft_is_kept (w : World) (m : Machine) :
  text (ui (fst (handleAnalyze w m))) = text (ui m)
  /\ text (ui (fst (fetchHistory w m))) = text (ui m)
  /\ result (ui (fst (fetchHistory w m))) = result (ui m)
  /\ isAnalyzing (ui (fst (fetchHistory w m))) = isAnalyzing (ui m).
Proof.
  split.
  - destruct (JS.truthy (JS.trim (text (ui m)))) eqn:Hdraft.
    + destruct (analyzeService w (analyzeRequest w (text (ui m))))
        as [e | [[|] [e | data]]] eqn:H.
      * rewrite (handleAnalyze_network_error w m Hdraft e H). reflexivity.
      * rewrite (handleAnalyze_decode_error w m Hdraft e H). reflexivity.
      * rewrite (handleAnalyze_succeeds w m Hdraft data H).
        destruct (fetchHistory_frame w (submitted w m data))
          as (final & rest & n & E & Htext & _).
        rewrite E. simpl. exact Htext.
      * rewrite (handleAnalyze_status_not_ok w m Hdraft _ H). reflexivity.
      * rewrite (handleAnalyze_status_not_ok w m Hdraft _ H). reflexivity.
    + rewrite (handleAnalyze_blank w m Hdraft). reflexivity.
  - destruct (fetchHistory_frame w m)
      as (final & rest & n & E & Htext & Hresult & Hflag & _).
    rewrite E. simpl. auto.
Qed.



(** X6: refreshing twice in a row against the same service gives the state
    that refreshing once gives, whether the call succeeds or fails. *)
Theorem refresh_is_idempotent (w : World) (s : State) :
  after (fetchHistory w) (after (fetchHistory w) s) = after (fetchHistory w) s.
Proof.
  unfold after.
  destruct (historyService w (historyRequest w)) as [e | [[|] [e | data]]] eqn:H.
  - rewrite !(fetchHistory_network_error w _ e H). reflexivity.
  - rewrite !(fetchHistory_decode_error w _ e H). reflexivity.
  - rewrite !(fetchHistory_succeeds w _ data H). reflexivity.
  - rewrite !(fetchHistory_status_not_ok w _ _ H). reflexivity.
  - rewrite !(fetchHistory_status_not_ok w _ _ H). reflexivity.
Qed.

(** ** Between two operations *)

(** X7: in every state the component reaches between two operations,
    whatever the service answers, both busy flags are false, the current
    result (if any) has no id, and every record of the history has one; so
    the Analyze button is disabled exactly when the draft is blank. *)
Theorem settled_states (s : State) :
  Reachable anyWorld s ->
  isAnalyzing s = false
  /\ isLoadingHistory s = false
  /\ (forall r, result s = Some r -> AnalysisResult.id r = None)
  /\ Forall (fun r => AnalysisResult.id r <> None) (history s)
  /\ analyzeDisabled s = negb (JS.truthy (JS.trim (text s))).
Proof.
  intros Hs.
  assert (Hinv : isAnalyzing s = false
                 /\ isLoadingHistory s = false
                 /\ (forall r, result s = Some r -> AnalysisResult.id r = None)
                 /\ Forall (fun r => AnalysisResult.id r <> None) (history s)).
  { induction Hs as [| w s _ Hs (Ha & Hl & Hr & Hh) | v s Hs IH
                     | w s _ Hs (Ha & Hl & Hr & Hh)].
    - simpl. repeat split; [discriminate | constructor].
    - unfold after.
      assert (Hkept : result (ui (fst (fetchHistory w (boot s)))) = result s
                      /\ isAnalyzing (ui (fst (fetchHistory w (boot s)))) = isAnalyzing s).
      { destruct (fetchHistory_frame w (boot s))
          as (final & rest & n & E & _ & Hres & Hflag & _).
        rewrite E. split; [exact Hres | exact Hflag]. }
      destruct Hkept as (Hres & Hflag).
      rewrite Hres, Hflag, (fetchHistory_flag_cleared w (boot s)).
      repeat split; try assumption.
      destruct (fetchHistory_history w (boot s)) as [E | (data & _ & E)]; rewrite E.
      + exact Hh.
      + apply Forall_forall. intros r Hin. apply in_map_iff in Hin.
        destruct Hin as (item & <- & _). discriminate.
    - exact IH.
    - unfold after.
      destruct (JS.truthy (JS.trim (text s))) eqn:Hdraft.
      + destruct (handleAnalyze_flags w (boot s) Hdraft) as (Hflag & Hload).
        rewrite Hflag. split; [reflexivity|]. split; [|split].
        * destruct Hload as [E | E]; rewrite E; [exact Hl | reflexivity].
        * destruct (handleAnalyze_result w (boot s)) as [E | (data & now & E)];
            rewrite E.
          -- exact Hr.
          -- intros r Er. injection Er as <-. reflexivity.
        * destruct (handleAnalyze_history w (boot s)) as [E | (data & _ & E)];
            rewrite E.
          -- exact Hh.
          -- apply Forall_forall. intros r Hin. apply in_map_iff in Hin.
             destruct Hin as (item & <- & _). discriminate.
      + rewrite (handleAnalyze_blank w (boot s) Hdraft). simpl.
        repeat split; assumption. }
  destruct Hinv as (Ha & Hl & Hr & Hh). repeat split; try assumption.
  unfold analyzeDisabled. rewrite Ha. apply orb_false_r.
Qed.

Lemma settled_states_witness :
  let w := Runtime.world (succeeds Runtime.lovely) (succeeds [Runtime.wellFormed]) in
  let s := after (handleAnalyze w) (after (setText (JS.lit "I love this product!"))
                                      (after (fetchHistory w) initialState)) in
  Reachable anyWorld s /\ isAnalyzing s = false /\ isLoadingHistory s = false.
Proof.
  assert (Hs : Reachable anyWorld
                 (after (handleAnalyze (Runtime.world (succeeds Runtime.lovely)
                                          (succeeds [Runtime.wellFormed])))
                    (after (setText (JS.lit "I love this product!"))
                       (after (fetchHistory
                                 (Runtime.world (succeeds Runtime.lovely)
                                    (succeeds [Runtime.wellFormed])))
                          initialState)))).
  { apply reach_handleAnalyze; [exact I|].
    apply reach_setText. apply reach_fetchHistory; [exact I|].
    apply reach_initial. }
  split; [exact Hs|].
  destruct (settled_states _ Hs) as (Ha & Hl & _). split; [exact Ha | exact Hl].
Defined.

(** X8: the "No history yet" placeholder is never on screen.  It sits
    inside the history card, which is only rendered when the history is not
    empty or a refresh is loading, while the placeholder asks for an empty
    history and no refresh loading.  With an empty history and nothing
    loading, the whole card is absent instead. *)
Theorem empty_placeholder_is_never_shown (s : State) :
  emptyPlaceholderShown s = false
  /\ (historyCardShown s = false
      <-> history s = [] /\ isLoadingHistory s = false)
  /\ (loadingRowShown s = isLoadingHistory s).
Proof.
  unfold emptyPlaceholderShown, loadingRowShown, historyCardShown.
  destruct (history s) as [|r h]; destruct (isLoadingHistory s); simpl;
    repeat split; intros; try reflexivity; try discriminate;
    try (destruct H; discriminate).
Qed.

(** ** The address of the service *)

Lemma stripTrailingSlash_slash (v : JS.str) :
  JS.stripTrailingSlash (v ++ JS.lit "/") = v.
Proof.
  unfold JS.stripTrailingSlash. simpl. rewrite rev_app_distr. simpl.
  apply rev_involutive.
Qed.

Lemma stripTrailingSlash_other (v : JS.str) (c : N) :
  c <> 47%N -> JS.stripTrailingSlash (v ++ [c]) = v ++ [c].
Proof.
  intros Hc. unfold JS.stripTrailingSlash. rewrite rev_app_distr. simpl.
  destruct (N.eqb_spec c 47); [contradiction | reflexivity].
Qed.

(** X9: the base address is never empty.  It is [http://localhost:8000]
    when the variable is unset, empty or a lone slash; a variable ending in
    a slash loses that one slash, so [v/] and [v] give the same address;
    any other variable is used as it is. *)
Theorem apiBaseUrl_cases (w : World) :
  apiBaseUrl w <> []
  /\ (NEXT_PUBLIC_API_URL w = None -> apiBaseUrl w = JS.lit "http://localhost:8000")
  /\ (NEXT_PUBLIC_API_URL w = Some [] \/ NEXT_PUBLIC_API_URL w = Some (JS.lit "/") ->
      apiBaseUrl w = JS.lit "http://localhost:8000")
  /\ (forall v, v <> [] -> NEXT_PUBLIC_API_URL w = Some (v ++ JS.lit "/") ->
                apiBaseUrl w = v)
  /\ (forall v c, c <> 47%N -> NEXT_PUBLIC_API_URL w = Some (v ++ [c]) ->
                  apiBaseUrl w = v ++ [c]).
Proof.
  unfold apiBaseUrl. repeat split.
  - destruct (NEXT_PUBLIC_API_URL w) as [v|]; [|discriminate].
    destruct (JS.stripTrailingSlash v) eqn:E; simpl; discriminate.
  - intros ->. reflexivity.
  - intros [-> | ->]; reflexivity.
  - intros v Hv ->. rewrite stripTrailingSlash_slash.
    destruct v; [contradiction | reflexivity].
  - intros v c Hc ->. rewrite (stripTrailingSlash_other v c Hc).
    destruct v; reflexivity.
Qed.

Lemma apiBaseUrl_cases_witness :
  let w := {| NEXT_PUBLIC_API_URL := Some (JS.lit "https://api.example.com/");
              analyzeService := fun _ => FetchRejects JS.OtherValue;
              historyService := fun _ => FetchRejects JS.OtherValue;
              clock := fun _ => 0;
              Date_parse := Runtime.parse |} in
  apiBaseUrl w = JS.lit "https://api.example.com".
Proof.
  apply (proj1 (proj2 (proj2 (proj2 (apiBaseUrl_cases
           {| NEXT_PUBLIC_API_URL := Some (JS.lit "https://api.example.com/");
              analyzeService := fun _ => FetchRejects JS.OtherValue;
              historyService := fun _ => FetchRejects JS.OtherValue;
              clock := fun _ => 0;
              Date_parse := Runtime.parse |}))))
           (JS.lit "https://api.example.com")).
  - discriminate.
  - reflexivity.
Defined.

(** ** Sentiments and scores on screen *)

Lemma JS_eqb_eq (s t : JS.str) : JS.eqb s t = true <-> s = t.
Proof.
  revert t. induction s as [|c s IH]; destruct t as [|d t]; simpl;
    try (split; [discriminate | discriminate]); [split; reflexivity|].
  rewrite andb_true_iff, N.eqb_eq, IH. split.
  - intros (-> & ->). reflexivity.
  - intros E. injection E as -> ->. split; reflexivity.
Qed.

(** X10: the icon and the classes of a sentiment always agree, and only
    the exact strings ["Positive"] and ["Negative"] are recognised: the
    upward icon and the positive classes go with ["Positive"], the downward
    icon and the negative classes with ["Negative"], and every other
    string, ["Neutral"] included, gets the flat icon and the neutral
    classes. *)
Theorem sentiment_presentation (sentiment : JS.str) :
  (getSentimentIcon sentiment = TrendingUp <-> sentiment = JS.lit "Positive")
  /\ (getSentimentIcon sentiment = TrendingDown <-> sentiment = JS.lit "Negative")
  /\ (getSentimentIcon sentiment = Minus
      <-> sentiment <> JS.lit "Positive" /\ sentiment <> JS.lit "Negative")
  /\ (getSentimentColor sentiment
        = JS.lit "bg-positive/20 text-positive border-positive/30"
      <-> getSentimentIcon sentiment = TrendingUp)
  /\ (getSentimentColor sentiment
        = JS.lit "bg-negative/20 text-negative border-negative/30"
      <-> getSentimentIcon sentiment = TrendingDown)
  /\ (getSentimentColor sentiment
        = JS.lit "bg-neutral/20 text-neutral border-neutral/30"
      <-> getSentimentIcon sentiment = Minus)
  /\ (forall s, getSentimentIcon (sentimentString s)
                = match s with
                  | Positive => TrendingUp
                  | Negative => TrendingDown
                  | Neutral => Minus
                  end).
Proof.
  unfold getSentimentIcon, getSentimentColor.
  destruct (JS.eqb sentiment (JS.lit "Positive")) eqn:Hp;
    [apply JS_eqb_eq in Hp; subst; simpl
    | destruct (JS.eqb sentiment (JS.lit "Negative")) eqn:Hn;
      [apply JS_eqb_eq in Hn; subst; simpl |]].
  - repeat split; intros; try reflexivity; try discriminate;
      try (destruct H; congruence); try (destruct s; reflexivity).
  - repeat split; intros; try reflexivity; try discriminate;
      try (destruct H; congruence); try (destruct s; reflexivity).
  - assert (Hp' : sentiment <> JS.lit "Positive").
    { intros E. apply JS_eqb_eq in E. congruence. }
    assert (Hn' : sentiment <> JS.lit "Negative").
    { intros E. apply JS_eqb_eq in E. congruence. }
    repeat split; intros; try reflexivity; try discriminate;
      try assumption; try contradiction; try (destruct s; reflexivity).
Qed.

Lemma above_is_positive (x : float) :
  (0.1 <? x)%float = true -> (0 <? x)%float = true.
Proof.
  rewrite !ltb_spec.
  replace (Prim2SF 0.1) with (S754_finite false 7205759403792794 (-56))
    by (vm_compute; reflexivity).
  replace (Prim2SF 0) with (S754_zero false) by (vm_compute; reflexivity).
  unfold SFltb, SFcompare.
  destruct (Prim2SF x) as [s|s| |s m e]; try destruct s; try discriminate;
    reflexivity.
Qed.

Lemma below_is_not_positive (x : float) :
  (x <? -0.1)%float = true -> (0 <? x)%float = false.
Proof.
  rewrite !ltb_spec.
  replace (Prim2SF (-0.1)) with (S754_finite true 7205759403792794 (-56))
    by (vm_compute; reflexivity).
  replace (Prim2SF 0) with (S754_zero false) by (vm_compute; reflexivity).
  unfold SFltb, SFcompare.
  destruct (Prim2SF x) as [s|s| |s m e]; try destruct s; try discriminate;
    reflexivity.
Qed.

(** X11: the three renderings of a score agree.  The bar's background is
    in the category of the text colour for every score; a score shown in
    the positive colour always carries the ["+"] prefix, and one shown in
    the negative colour never does (its minus sign comes from the number). *)
Theorem score_presentation (score : float) :
  barBackground score
    = match getScoreColor score with
      | text_positive => JS.lit "var(--positive)"
      | text_negative => JS.lit "var(--negative)"
      | text_neutral => JS.lit "var(--neutral)"
      end
  /\ (getScoreColor score = text_positive -> scoreSign score = JS.lit "+")
  /\ (getScoreColor score = text_negative -> scoreSign score = JS.lit "").
Proof.
  pose proof (above_is_positive score) as Habove.
  pose proof (below_is_not_positive score) as Hbelow.
  unfold barBackground, getScoreColor, scoreSign.
  destruct (0.1 <? score)%float; [|destruct (score <? -0.1)%float].
  - rewrite (Habove eq_refl). repeat split. discriminate.
  - rewrite (Hbelow eq_refl). repeat split. discriminate.
  - repeat split; discriminate.
Qed.

Lemma score_presentation_witness :
  getScoreColor 0.8 = text_positive /\ scoreSign 0.8 = JS.lit "+".
Proof.
  split; [reflexivity|].
  apply (proj1 (proj2 (score_presentation 0.8))). reflexivity.
Defined.

Example neutral_score_with_plus :
  getScoreColor 0.05 = text_neutral /\ scoreSign 0.05 = JS.lit "+"
  /\ scoreSign nan = JS.lit "" /\ getScoreColor nan = text_neutral.
Proof. repeat split. Qed.

(** ** Snippets *)

Lemma truncateText_unchanged (s : JS.str) (n : nat) :
  (List.length s <= n)%nat -> truncateText s (Z.of_nat n) = s.
Proof.
  intros Hn. unfold truncateText, JS.length.
  destruct (Z.of_nat (List.length s) <=? Z.of_nat n) eqn:Hle; [reflexivity | lia].
Qed.

Lemma truncateText_cut (s : JS.str) (n : nat) :
  (n < List.length s)%nat -> truncateText s (Z.of_nat n) = firstn n s ++ ellipsis.
Proof.
  intros Hn. unfold truncateText, JS.length.
  destruct (Z.of_nat (List.length s) <=? Z.of_nat n) eqn:Hle; [lia|].
  rewrite slice_prefix by lia. reflexivity.
Qed.

(** X12: a snippet is never longer than the limit plus the three dots, and
    is exactly that long once the text exceeds the limit (so a text one or
    two code units over the limit gets longer, not shorter); it starts with
    the same [n] code units as the text; and truncating a snippet again
    changes nothing. *)
Theorem truncateText_snippet (s : JS.str) (n : nat) :
  (List.length (truncateText s (Z.of_nat n)) <= n + 3)%nat
  /\ ((n < List.length s)%nat ->
      List.length (truncateText s (Z.of_nat n)) = (n + 3)%nat)
  /\ firstn n (truncateText s (Z.of_nat n)) = firstn n s
  /\ truncateText (truncateText s (Z.of_nat n)) (Z.of_nat n)
     = truncateText s (Z.of_nat n).
Proof.
  destruct (le_lt_dec (List.length s) n) as [Hshort | Hlong].
  - rewrite !(truncateText_unchanged s n Hshort).
    split; [lia|]. split; [lia|]. split; reflexivity.
  - rewrite (truncateText_cut s n Hlong).
    assert (Hlen : List.length (firstn n s ++ ellipsis) = (n + 3)%nat).
    { rewrite length_app, firstn_length_le by lia. reflexivity. }
    assert (Hpre : firstn n (firstn n s ++ ellipsis) = firstn n s).
    { rewrite firstn_app, firstn_firstn, Nat.min_id, firstn_length_le by lia.
      rewrite Nat.sub_diag. simpl. apply app_nil_r. }
    split; [lia|]. split; [intros _; exact Hlen|]. split; [exact Hpre|].
    rewrite truncateText_cut by lia. rewrite Hpre. reflexivity.
Qed.

Lemma truncateText_snippet_witness :
  let s := repeat 97%N 61 in
  (60 < List.length s)%nat
  /\ List.length (truncateText s defaultMaxLength) = 63%nat.
Proof.
  split; [simpl; lia|].
  apply (proj1 (proj2 (truncateText_snippet (repeat 97%N 61) 60))).
  simpl. lia.
Defined.

(** ** The keys of the history rows *)

Lemma lit_inj (s t : string) : JS.lit s = JS.lit t -> s = t.
Proof.
  revert t. induction s as [|a s IH]; destruct t as [|b t]; simpl;
    try discriminate; [reflexivity|].
  intros E. injection E as Hab Hst. f_equal; [|apply IH; exact Hst].
  rewrite <- (ascii_N_embedding a), <- (ascii_N_embedding b), Hab. reflexivity.
Qed.

Lemma ofInteger_inj (a b : Z) : JS.ofInteger a = JS.ofInteger b -> a = b.
Proof.
  unfold JS.ofInteger. intros E. apply lit_inj in E.
  apply DecimalZ.to_int_inj.
  pose proof (DecimalString.NilEmpty.isi (Z.to_int a)) as Ha.
  pose proof (DecimalString.NilEmpty.isi (Z.to_int b)) as Hb.
  rewrite E in Ha. congruence.
Qed.

Lemma digits_have_no_dash (d : Decimal.uint) :
  Forall (fun c => c <> 45%N) (JS.lit (DecimalString.NilEmpty.string_of_uint d)).
Proof.
  induction d; simpl; constructor; try discriminate; assumption.
Qed.

Lemma ofInteger_index (index : nat) :
  Forall (fun c => c <> 45%N) (JS.ofInteger (Z.of_nat index)).
Proof.
  unfold JS.ofInteger. destruct (Z.of_nat index) eqn:E; simpl.
  - repeat constructor. discriminate.
  - apply digits_have_no_dash.
  - lia.
Qed.

Lemma same_up_to_mark (x x' y y' : JS.str) :
  Forall (fun c => c <> 45%N) x -> Forall (fun c => c <> 45%N) x' ->
  x ++ 45%N :: y = x' ++ 45%N :: y' -> x = x'.
Proof.
  intros Hx. revert x'. induction Hx as [|c x Hc _ IH]; intros x' Hx' E.
  - destruct x' as [|c' x']; [reflexivity|].
    simpl in E. injection E as E _. inversion Hx'. congruence.
  - destruct x' as [|c' x']; simpl in E.
    + injection E as E _. congruence.
    + injection E as -> E. f_equal. inversion Hx'. apply IH; assumption.
Qed.

(** The index of a row can be read back from its key. *)
Lemma rowKey_index (item item' : AnalysisResult.t) (i j : nat) :
  rowKey item i = rowKey item' j -> i = j.
Proof.
  unfold rowKey. simpl. intros E.
  apply (f_equal (@rev N)) in E. rewrite !rev_app_distr in E. simpl in E.
  rewrite <- !app_assoc in E. simpl in E.
  apply same_up_to_mark in E.
  - apply (f_equal (@rev N)) in E. rewrite !rev_involutive in E.
    apply ofInteger_inj in E. lia.
  - apply Forall_rev. apply ofInteger_index.
  - apply Forall_rev. apply ofInteger_index.
Qed.

Lemma rowKeysFrom_In (items : list AnalysisResult.t) :
  forall index key,
    In key (rowKeysFrom index items) ->
    exists item j, (index <= j)%nat /\ key = rowKey item j.
Proof.
  induction items as [|item items IH]; intros index key; simpl; [contradiction|].
  intros [<- | Hin].
  - exists item, index. split; [lia | reflexivity].
  - destruct (IH _ _ Hin) as (item' & j & Hj & E).
    exists item', j. split; [lia | exact E].
Qed.

(** X13: the rows of the history list have pairwise distinct keys, one per
    record, whatever the timestamps are: equal ones, or the Invalid Date,
    whose part of the key is ["NaN"]. *)
Theorem row_keys_are_distinct (items : list AnalysisResult.t) :
  NoDup (rowKeys items)
  /\ List.length (rowKeys items) = List.length items
  /\ (forall item item' i j, rowKey item i = rowKey item' j -> i = j).
Proof.
  unfold rowKeys. generalize 0%nat as index.
  assert (Hnodup : forall index, NoDup (rowKeysFrom index items)).
  { induction items as [|item items IH]; intros index; simpl; constructor.
    - intros Hin. destruct (rowKeysFrom_In _ _ _ Hin) as (item' & j & Hj & E).
      apply rowKey_index in E. lia.
    - apply IH. }
  assert (Hlen : forall index,
             List.length (rowKeysFrom index items) = List.length items).
  { clear Hnodup. induction items as [|item items IH]; intros index; simpl;
      [reflexivity | f_equal; apply IH]. }
  intros index. split; [apply Hnodup|]. split; [apply Hlen|].
  exact rowKey_index.
Qed.

Example rowKeys_sample :
  rowKeys [ newResult Runtime.lovely (JS.ValidDate 1714566600000);
            newResult Runtime.lovely (JS.ValidDate 1714566600000);
            newResult Runtime.lovely JS.InvalidDate ]
  = [JS.lit "1714566600000-0"; JS.lit "1714566600000-1"; JS.lit "NaN-2"].
Proof. vm_compute. reflexivity. Qed.
